(** * llama-desktop-controller: the generate / normalize / execute pipeline

    A shallow embedding of [src/backend/server.py]:

    - [clean_generated_code]  (the Code Normalizer),
    - [is_code_safe]          (the Safety Gate),
    - [call_llm_for_code]     (the Code Generator),
    - [execute_code]          (the Sandboxed Executor),
    - [process_command]       (the Pipeline Orchestrator, route [/process]).

    Python [str] values are sequences of Unicode code points, so a string
    is a [list N].  Code that touches the file system, the console, the
    child process or the inference backend runs in a state-and-exception
    monad over an explicit [World]. *)

From Stdlib Require Import ZArith NArith Ascii String DecimalString.
From stdpp Require Import gmap strings list fin_maps.

Open Scope N_scope.

(** ** Python strings *)

Module Py.

(** A [str] is a list of code points. *)
Definition str : Type := list N.

(** A literal of the source text, character by character. *)
Definition lit (s : string) : str := map N_of_ascii (list_ascii_of_string s).

(** The newline character ['\n']. *)
Definition nl : N := 10.

(** The double quote, which a literal cannot hold. *)
Definition dquote : N := 34.

(** The backtick of a markdown fence. *)
Definition tick : N := 96.

(** [str.isspace] on one character, which is also the class [\s] of [re]
    on [str] patterns: the ASCII controls 0x09-0x0D and 0x1C-0x1F, the
    space, and the Unicode white space beyond ASCII. *)
Definition is_space (c : N) : bool :=
  ((9 <=? c) && (c <=? 13)) || ((28 <=? c) && (c <=? 31)) || (c =? 32)
  || (c =? 133) || (c =? 160) || (c =? 5760)
  || ((8192 <=? c) && (c <=? 8202))
  || (c =? 8232) || (c =? 8233) || (c =? 8239) || (c =? 8287) || (c =? 12288).

(** [s.rstrip()]: drop the white space at the end of [s]. *)
Fixpoint rstrip (s : str) : str :=
  match s with
  | [] => []
  | c :: s' =>
      match rstrip s' with
      | [] => if is_space c then [] else [c]
      | r => c :: r
      end
  end.

(** [s.split(sep)] for a separator of one character: never empty. *)
Fixpoint split (sep : N) (s : str) : list str :=
  match s with
  | [] => [[]]
  | c :: s' =>
      if c =? sep then [] :: split sep s'
      else match split sep s' with
           | l :: ls => (c :: l) :: ls
           | [] => [[c]]
           end
  end.

(** [sep.join(ls)]. *)
Fixpoint join (sep : str) (ls : list str) : str :=
  match ls with
  | [] => []
  | [l] => l
  | l :: ls' => l ++ sep ++ join sep ls'
  end.

(** [str(n)] for an [int]. *)
Definition str_of_int (n : Z) : str :=
  lit (NilZero.string_of_int (Z.to_int n)).

End Py.

(** ** The fragment of [re] that the normalizer uses

    The three patterns of [clean_generated_code] are built from [^], [$],
    literal characters and the greedy [\s*].  [match_here] is a
    backtracking matcher for that fragment, [re_sub] is
    [re.sub(pattern, '', s)] with no flags. *)

Module Re.
Import Py.

Inductive atom : Type :=
| Bol                (* ^   : the start of the string *)
| Eol                (* $   : the end, or just before a final newline *)
| Chr (c : N)        (* a literal character *)
| SpaceStar.         (* \s* : white space, greedy *)

(** The pattern text, as written in the source, to its atoms. *)
Fixpoint compile_chars (p : list ascii) : list atom :=
  match p with
  | [] => []
  | "^"%char :: r => Bol :: compile_chars r
  | "$"%char :: r => Eol :: compile_chars r
  | "\"%char :: "s"%char :: "*"%char :: r => SpaceStar :: compile_chars r
  | c :: r => Chr (N_of_ascii c) :: compile_chars r
  end.

Definition compile (p : string) : list atom :=
  compile_chars (list_ascii_of_string p).

(** Without [re.MULTILINE], [$] matches at the end of the string and just
    before a newline that ends the string. *)
Definition at_end (s : str) : bool :=
  match s with
  | [] => true
  | [c] => c =? nl
  | _ => false
  end.

(** Try the pattern at the current position; [at_start] says whether the
    position is 0.  The result is the number of characters of the first
    match in backtracking order. *)
Fixpoint match_here (p : list atom) (at_start : bool) (s : str)
  {struct p} : option nat :=
  match p with
  | [] => Some 0%nat
  | Bol :: p' => if at_start then match_here p' at_start s else None
  | Eol :: p' => if at_end s then match_here p' at_start s else None
  | Chr c :: p' =>
      match s with
      | x :: s' => if x =? c then S <$> match_here p' false s' else None
      | [] => None
      end
  | SpaceStar :: p' =>
      (fix star (at_start : bool) (s : str) {struct s} : option nat :=
         match s with
         | x :: s' =>
             if is_space x then
               match star false s' with
               | Some n => Some (S n)
               | None => match_here p' at_start s
               end
             else match_here p' at_start s
         | [] => match_here p' at_start s
         end) at_start s
  end.

(** The scan of [re.sub(p, '', s)]: at each position, leftmost first, a
    match is dropped and the scan resumes after it ([skip] counts the
    characters of the match still to drop); otherwise the character is
    kept.  An empty match replaced by [''] changes nothing, and no pattern
    of the source matches the empty string. *)
Fixpoint sub_scan (p : list atom) (at_start : bool) (skip : nat) (s : str)
  : str :=
  match s with
  | [] => []
  | x :: s' =>
      match skip with
      | S k => sub_scan p false k s'
      | O =>
          match match_here p at_start s with
          | Some (S n) => sub_scan p false n s'
          | _ => x :: sub_scan p false 0 s'
          end
      end
  end.

Definition re_sub (pattern : string) (s : str) : str :=
  sub_scan (compile pattern) true 0 s.

End Re.

(** ** Code Normalizer: [clean_generated_code] *)

Import Py.

(** The loop [for line in lines: clean_lines.append(line.rstrip())]. *)
Definition rstrip_lines (lines : list str) : list str :=
  fold_left (fun clean_lines line => clean_lines ++ [rstrip line]) lines [].

Definition clean_generated_code (code : str) : str :=
  let code := Re.re_sub "^```python\s*" code in
  let code := Re.re_sub "\s*```$" code in
  let code := Re.re_sub "^```\s*" code in
  let lines := split nl code in
  let clean_lines := rstrip_lines lines in
  join [nl] clean_lines.

(** ** The world: file system, console, child processes

    The file system maps a path to the content of the regular file there;
    the working directory is writable, so [open(path, "w")] succeeds.
    Files are written in the encoding of the platform, UTF-8, which has
    no code for a surrogate: [write] raises on a text that holds one.
    [console] is what the server printed, one entry per call of [print];
    the console takes every text.  [procs] is the history of the child
    processes. *)

Inductive proc_event : Type :=
| Spawned (argv : list str) (timeout : N)
| Exited (returncode : Z)
| Killed.

Record World : Type := mkWorld {
  fs : gmap str str;
  console : list str;
  procs : list proc_event
}.

(** Whether a child process is left running at the end of a history. *)
Fixpoint child_running (running : bool) (h : list proc_event) : bool :=
  match h with
  | [] => running
  | Spawned _ _ :: h' => child_running true h'
  | Exited _ :: h' => child_running false h'
  | Killed :: h' => child_running false h'
  end.

(** ** Exceptions

    Only instances of [Exception] are modelled; what the source observes
    of one is its class and [str(e)].  A [TimeoutExpired] carries the
    output captured until the timeout. *)

Inductive exc_kind : Type :=
| TimeoutExpired (output stderr : str)
| FileNotFoundError
| SyntaxError
| AttributeError
| OtherException
| UnicodeEncodeError
| TypeError
| KeyError
| HTTPException (status : N).

Record exn : Type := mkExn { kind : exc_kind; exc_str : str }.

Inductive outcome (A : Type) : Type :=
| Return (a : A)
| Raise (e : exn).
Arguments Return {A} a.
Arguments Raise {A} e.

(** ** The monad of the effectful code *)

Definition M (A : Type) : Type := World -> outcome A * World.

Definition ret {A} (a : A) : M A := fun w => (Return a, w).

Definition raise {A} (e : exn) : M A := fun w => (Raise e, w).

Definition bind {A B} (m : M A) (k : A -> M B) : M B :=
  fun w =>
    match m w with
    | (Return a, w') => k a w'
    | (Raise e, w') => (Raise e, w')
    end.

(** [try: body  except ... as e: handler e]; the handler sees the world as
    the body left it, and what it raises propagates. *)
Definition try_except {A} (body : M A) (handler : exn -> M A) : M A :=
  fun w =>
    match body w with
    | (Return a, w') => (Return a, w')
    | (Raise e, w') => handler e w'
    end.

Declare Scope py_scope.
Delimit Scope py_scope with py.
Notation "x <- m ;; k" := (bind m (fun x => k))
  (at level 100, m at next level, k at level 200, right associativity)
  : py_scope.
Notation "m ;; k" := (bind m (fun _ => k))
  (at level 100, k at level 200, right associativity) : py_scope.
Open Scope py_scope.

(** ** Built-ins and the [os] module *)

Definition print (s : str) : M unit :=
  fun w => (Return tt, mkWorld (fs w) (console w ++ [s]) (procs w)).

(** A surrogate code point, U+D800 to U+DFFF. *)
Definition is_surrogate (c : N) : bool := (55296 <=? c) && (c <=? 57343).

(** Whether the UTF-8 codec, which is strict, can encode the text. *)
Definition encodable (s : str) : bool :=
  forallb (fun c => negb (is_surrogate c)) s.

(** [with open(path, "w") as f: f.write(content)]: [open] creates the
    file or empties it; [write] encodes the text and raises when it
    cannot, and the file stays, empty.  (The text of the exception names
    the character and its position; the model leaves them out.) *)
Definition open_write (path content : str) : M unit :=
  fun w =>
    if encodable content then
      (Return tt,
       mkWorld (<[path := content]> (fs w)) (console w) (procs w))
    else
      (Raise (mkExn UnicodeEncodeError
                (lit "'utf-8' codec can't encode character: surrogates not allowed")),
       mkWorld (<[path := []]> (fs w)) (console w) (procs w)).

Definition os_path_exists (path : str) : M bool :=
  fun w => (Return (bool_decide (is_Some (fs w !! path))), w).

Definition os_remove (path : str) : M unit :=
  fun w =>
    match fs w !! path with
    | Some _ => (Return tt, mkWorld (delete path (fs w)) (console w) (procs w))
    | None =>
        (Raise (mkExn FileNotFoundError
                  (lit "[Errno 2] No such file or directory: '" ++ path ++ lit "'")),
         w)
    end.

(** ** Records of the pipeline *)

Record CompletedProcess : Type := mkCompleted {
  returncode : Z;
  stdout : str;
  stderr : str
}.

Record ExecutionResult : Type := mkResult {
  success : bool;
  message : str;
  output : str
}.

(** ** Decoded JSON values

    What [request.json] gives: [None], a [bool], an [int], a [float], a
    [str], a [list] or a [dict].  The program looks at the truth value of
    such a value, at its members and at the text [str()] gives for it; a
    float and a container carry that text, which the model does not
    compute. *)

#[local] Unset Elimination Schemes.

Inductive json : Type :=
| JNull
| JBool (b : bool)
| JInt (n : Z)
| JFloat (nonzero : bool) (shown : str)
| JString (s : str)
| JArray (items : list json) (shown : str)
| JObject (fields : gmap str json) (shown : str).

#[local] Set Elimination Schemes.

(** [bool(v)]. *)
Definition truthy (v : json) : bool :=
  match v with
  | JNull => false
  | JBool b => b
  | JInt n => negb (n =? 0)%Z
  | JFloat nonzero _ => nonzero
  | JString s => negb (bool_decide (s = []))
  | JArray items _ => match items with [] => false | _ => true end
  | JObject fields _ => negb (bool_decide (fields = ∅))
  end.

(** [str(v)], which is also what an f-string puts for [{v}]. *)
Definition py_str (v : json) : str :=
  match v with
  | JNull => lit "None"
  | JBool true => lit "True"
  | JBool false => lit "False"
  | JInt n => str_of_int n
  | JFloat _ shown => shown
  | JString s => s
  | JArray _ shown => shown
  | JObject _ shown => shown
  end.

(** [type(v).__name__]. *)
Definition type_name (v : json) : str :=
  match v with
  | JNull => lit "NoneType"
  | JBool _ => lit "bool"
  | JInt _ => lit "int"
  | JFloat _ _ => lit "float"
  | JString _ => lit "str"
  | JArray _ _ => lit "list"
  | JObject _ _ => lit "dict"
  end.

(** [v == key] for a [str] [key]. *)
Definition is_string (key : str) (v : json) : bool :=
  match v with
  | JString s => bool_decide (s = key)
  | _ => false
  end.

(** [needle in hay] on two [str]. *)
Fixpoint substring (needle hay : str) : bool :=
  match needle, hay with
  | [], _ => true
  | _ :: _, [] => false
  | _ :: _, _ :: hay' =>
      (fix starts (p s : str) {struct p} : bool :=
         match p, s with
         | [], _ => true
         | a :: p', b :: s' => (b =? a) && starts p' s'
         | _ :: _, [] => false
         end) needle hay
      || substring needle hay'
  end.

(** [key in v] for a [str] [key]: a key of a [dict], an element of a
    [list], a part of a [str]; the other values are no containers. *)
Definition contains (key : str) (v : json) : M bool :=
  match v with
  | JObject fields _ => ret (bool_decide (is_Some (fields !! key)))
  | JArray items _ => ret (existsb (is_string key) items)
  | JString s => ret (substring key s)
  | _ =>
      raise (mkExn TypeError
               (lit "argument of type '" ++ type_name v
                ++ lit "' is not iterable"))
  end.

(** [v[key]] for a [str] [key]. *)
Definition getitem (v : json) (key : str) : M json :=
  match v with
  | JObject fields _ =>
      match fields !! key with
      | Some x => ret x
      | None => raise (mkExn KeyError (lit "'" ++ key ++ lit "'"))
      end
  | JArray _ _ =>
      raise (mkExn TypeError
               (lit "list indices must be integers or slices, not str"))
  | JString _ =>
      raise (mkExn TypeError (lit "string indices must be integers, not 'str'"))
  | _ =>
      raise (mkExn TypeError
               (lit "'" ++ type_name v ++ lit "' object is not subscriptable"))
  end.

Record PipelineResponse : Type := mkResponse {
  command : json;
  generated_code : str;
  execution_result : ExecutionResult
}.

(** What [jsonify] sends back: the body with status 200, or the error
    body with status 400. *)
Inductive http_response : Type :=
| Json200 (body : PipelineResponse)
| Json400 (error : str).

Record Message : Type := mkMessage { content : str; role : str }.

Record CompletionMessage : Type := mkCompletion { completion_content : str }.

(** A response of the backend; a malformed one has no completion. *)
Record ChatCompletionResponse : Type := mkChat {
  completion_message : option CompletionMessage
}.

(** What the interpreter did with the file within the time budget. *)
Inductive child_obs : Type :=
| ChildExit (rc : Z) (out err : str) (fs' : gmap str str)
| ChildOverrun (out err : str) (fs' : gmap str str)
| LaunchError (e : exn)
| CaptureError (e : exn) (fs' : gmap str str).

(** What [request.json] does with the request at hand: it raises an
    HTTP error (415 without a JSON content type, 400 on a body that is
    not JSON) or gives the decoded body. *)
Definition request : Type := exn + json.

(** The types of the collaborators outside the repository. *)
Definition backend : Type :=
  list Message -> str -> bool -> exn + ChatCompletionResponse.
Definition interpreter : Type := list str -> N -> gmap str str -> child_obs.
Definition parser : Type := str -> option exn.
Definition searcher : Type := string -> str -> bool.

(** ** The program *)

Section Server.

(** The collaborators outside the repository: the inference backend
    ([llama_client.inference.chat_completion]), [ast.parse] ([None] when
    the source parses), [re.search] on a denylist pattern, and the
    [python3] interpreter run on the file system as it is at launch. *)
Variable chat_completion : backend.
Variable ast_parse : parser.
Variable re_search : searcher.
Variable python3 : interpreter.

Definition LLAMA_MODEL : str := lit "meta-llama/Llama-3.2-3B-Instruct".

Definition system_prompt : str := lit
"You are an AI that translates natural language commands into macOS system API calls using Python.
Generate ONLY valid Python code that can be executed to perform the requested action on macOS.
Your code should use the most appropriate low-level macOS APIs or commands.
For UI actions, prefer to use:
1. PyObjC and AppKit for direct macOS API access
2. AppleScript through subprocess.run for UI automation
3. Shell commands through subprocess for system tasks

Return ONLY the Python code with no explanation, commentary, or markdown. Just the raw Python code.
The code should be complete and executable as-is. Include all necessary imports at the top.
".

Definition user_message (user_query : str) : str :=
  lit "Generate macOS API code for this command: "
  ++ [dquote] ++ user_query ++ [dquote] ++ lit "

Your code should be as flexible as possible and handle potential errors gracefully.
Here are some examples of the APIs you can use:
- NSWorkspace for app management
- NSRunningApplication for app control
- AppKit for UI elements
- CoreGraphics for screen and window management
- AppleScript for UI automation
- subprocess for system commands

The code will be executed directly, so make it safe and effective.
".

(** The call of the client; it raises what the backend raises. *)
Definition inference_chat_completion (messages : list Message)
    (model_id : str) (stream : bool) : M ChatCompletionResponse :=
  match chat_completion messages model_id stream with
  | inl e => raise e
  | inr response => ret response
  end.

(** [response.completion_message.content]. *)
Definition get_content (response : ChatCompletionResponse) : M str :=
  match completion_message response with
  | Some m => ret (completion_content m)
  | None =>
      raise (mkExn AttributeError
               (lit "'NoneType' object has no attribute 'content'"))
  end.

(** The two messages of the request. *)
Definition chat_messages (user_query : str) : list Message :=
  [ mkMessage system_prompt (lit "system");
    mkMessage (user_message user_query) (lit "user") ].

(** The body of the [try] block of [call_llm_for_code]. *)
Definition llm_request (user_query : str) : M str :=
  response <- inference_chat_completion (chat_messages user_query)
                LLAMA_MODEL false ;;
  get_content response.

Definition call_llm_for_code (user_query : str) : M str :=
  try_except
    (llm_request user_query)
    (fun e =>
       print (lit "Error calling LLM: " ++ exc_str e) ;;
       ret (lit "# Error generating code")).

(** The loop over the denylist, with its early [return False]. *)
Fixpoint any_pattern_matches (dangerous_patterns : list string) (code : str)
  : bool :=
  match dangerous_patterns with
  | [] => false
  | pattern :: rest =>
      if re_search pattern code then true
      else any_pattern_matches rest code
  end.

(** [is_code_safe] with the denylist as a parameter. *)
Definition is_code_safe_with (dangerous_patterns : list string) (code : str)
  : M bool :=
  if any_pattern_matches dangerous_patterns code then ret false
  else
    try_except
      (match ast_parse code with
       | None => ret true
       | Some e => raise e
       end)
      (fun e =>
         match kind e with
         | SyntaxError => ret false
         | _ => raise e
         end).

(** In the source every entry of the denylist is commented out. *)
Definition is_code_safe (code : str) : M bool :=
  is_code_safe_with [] code.

(** [subprocess.run(argv, capture_output=True, text=True, timeout=t)] of
    the standard library: a child that outlives the timeout is killed and
    waited for before [TimeoutExpired] is raised, and so is a child whose
    output cannot be captured. *)
Definition subprocess_run (argv : list str) (timeout : N)
  : M CompletedProcess :=
  fun w =>
    match python3 argv timeout (fs w) with
    | ChildExit rc out err fs' =>
        (Return (mkCompleted rc out err),
         mkWorld fs' (console w) (procs w ++ [Spawned argv timeout; Exited rc]))
    | ChildOverrun out err fs' =>
        (Raise (mkExn (TimeoutExpired out err) (lit "Command timed out")),
         mkWorld fs' (console w) (procs w ++ [Spawned argv timeout; Killed]))
    | LaunchError e => (Raise e, w)
    | CaptureError e fs' =>
        (Raise e,
         mkWorld fs' (console w) (procs w ++ [Spawned argv timeout; Killed]))
    end.

(** [if os.path.exists(path): os.remove(path)], the clean-up of the two
    handlers. *)
Definition remove_if_exists (path : str) : M unit :=
  present <- os_path_exists path ;;
  if present then os_remove path else ret tt.

Definition execute_code (code : str) : M ExecutionResult :=
  let code := clean_generated_code code in
  print (lit "Code to be executed:") ;;
  print (lit "-------------------") ;;
  print code ;;
  print (lit "-------------------") ;;
  let code_file := lit "temp_code.py" in
  open_write code_file code ;;
  try_except
    (result <- subprocess_run [lit "python3"; code_file] 60 ;;
     print (lit "running python3 now") ;;
     os_remove code_file ;;
     if (returncode result =? 0)%Z then
       ret (mkResult true (lit "Command executed successfully")
                     (stdout result))
     else
       ret (mkResult false
              (lit "Error executing code (exit code "
               ++ str_of_int (returncode result) ++ lit ")")
              (stderr result)))
    (fun e =>
       match kind e with
       | TimeoutExpired _ _ =>
           remove_if_exists code_file ;;
           ret (mkResult false (lit "Command execution timed out")
                  (lit "Execution took too long and was terminated"))
       | _ =>
           remove_if_exists code_file ;;
           ret (mkResult false
                  (lit "Exception during execution: " ++ exc_str e)
                  (exc_str e))
       end).

(** The world in which [execute_code] launches the interpreter: after the
    four calls of [print] and the write of the file. *)
Definition at_launch (code : str) (w : World) : World :=
  let code := clean_generated_code code in
  snd ((print (lit "Code to be executed:") ;;
        print (lit "-------------------") ;;
        print code ;;
        print (lit "-------------------") ;;
        open_write (lit "temp_code.py") code) w).

(** What the interpreter does with the code that [execute_code] hands to
    it from the world [w]; nothing when the code cannot be written to the
    file, for then [execute_code] has raised before its [try]. *)
Definition launched (code : str) (w : World) : option child_obs :=
  if encodable (clean_generated_code code) then
    Some (python3 [lit "python3"; lit "temp_code.py"] 60
            (fs (at_launch code w)))
  else None.

(** [request.json]. *)
Definition request_json (rq : request) : M json :=
  match rq with
  | inl e => raise e
  | inr data => ret data
  end.

(** The handler of [POST /process].  [call_llm_for_code] puts its
    argument in an f-string and does nothing else with it, so it is
    given the text of the command. *)
Definition process_command (rq : request) : M http_response :=
  data <- request_json rq ;;
  no_command <- (if negb (truthy data) then ret true
                 else found <- contains (lit "command") data ;;
                      ret (negb found)) ;;
  if (no_command : bool) then ret (Json400 (lit "No command provided"))
  else
    user_command <- getitem data (lit "command") ;;
    generated_code <- call_llm_for_code (py_str user_command) ;;
    result <- execute_code generated_code ;;
    ret (Json200 (mkResponse user_command generated_code result)).

End Server.

(** ** Vocabulary of the statements about the normalizer *)

(** The fence marker. *)
Definition fence : str := lit "```".

Fixpoint starts_with (p s : str) : bool :=
  match p, s with
  | [], _ => true
  | a :: p', b :: s' => (b =? a) && starts_with p' s'
  | _ :: _, [] => false
  end.

Fixpoint ends_with (p s : str) : bool :=
  bool_decide (s = p)
  || match s with
     | [] => false
     | _ :: s' => ends_with p s'
     end.

(** [s.lstrip()]. *)
Fixpoint lstrip (s : str) : str :=
  match s with
  | [] => []
  | c :: s' => if is_space c then lstrip s' else s
  end.

(** A fence is left at the start of the text, at its end, or before its
    final newline. *)
Definition has_residual_fence (s : str) : bool :=
  starts_with fence s || ends_with fence s || ends_with (fence ++ [nl]) s.

(** [r] is [s] without the marker [tag] and the white space after it, if
    [s] starts with [tag]; otherwise [r] is [s]. *)
Definition leading_stripped (tag s r : str) : Prop :=
  (starts_with tag s = false /\ r = s)
  \/ (exists ws, s = tag ++ ws ++ r /\ forallb is_space ws = true
                 /\ lstrip r = r).

(** [r] is [s] without the fence that ends it (or that stands before its
    final newline) and the white space before that fence, if there is
    one; otherwise [r] is [s]. *)
Definition trailing_stripped (s r : str) : Prop :=
  (ends_with fence s = false /\ ends_with (fence ++ [nl]) s = false /\ r = s)
  \/ (exists a ws tail,
        s = a ++ ws ++ fence ++ tail /\ r = a ++ tail
        /\ forallb is_space ws = true /\ rstrip a = a
        /\ (tail = [] \/ tail = [nl])).

(** The normalizer as the specification words it: one leading fence
    marker with an optional language tag, one trailing fence marker, the
    white space at the end of every line.  The specification does not say
    which marker goes first, so both orders are given. *)
Definition strip_leading_fence (s : str) : str :=
  if starts_with (lit "```python") s then lstrip (drop 9 s)
  else if starts_with fence s then lstrip (drop 3 s)
  else s.

Definition strip_trailing_fence (s : str) : str := Re.re_sub "\s*```$" s.

Definition normalize_outermost (s : str) : str :=
  join [nl] (map rstrip
               (split nl (strip_trailing_fence (strip_leading_fence s)))).

Definition normalize_outermost' (s : str) : str :=
  join [nl] (map rstrip
               (split nl (strip_leading_fence (strip_trailing_fence s)))).

(** ** Vocabulary of the statements about the executor *)

(** What the two handlers of [execute_code] answer for an exception, by
    its class. *)
Definition handled (e : exn) : ExecutionResult :=
  match kind e with
  | TimeoutExpired _ _ =>
      mkResult false (lit "Command execution timed out")
        (lit "Execution took too long and was terminated")
  | _ =>
      mkResult false (lit "Exception during execution: " ++ exc_str e)
        (exc_str e)
  end.

(** ** Sample collaborators and inputs *)

Definition code_file : str := lit "temp_code.py".

Definition world0 : World := mkWorld ∅ [] [].

(** A backend that cannot be reached. *)
Definition backend_down : backend := fun _ _ _ =>
  inl (mkExn OtherException (lit "Connection refused")).

(** A backend whose response has no completion message. *)
Definition backend_malformed : backend := fun _ _ _ =>
  inr (mkChat None).

(** A backend that always answers with the text [answer]. *)
Definition backend_says (answer : str) : backend := fun _ _ _ =>
  inr (mkChat (Some (mkCompletion answer))).

Definition fenced_print : str :=
  lit "```python" ++ [nl] ++ lit "print(1)" ++ [nl] ++ lit "```".

(** A text whose closing fence is written twice. *)
Definition twice_closed : str :=
  lit "print(1)" ++ [nl] ++ fence ++ [nl] ++ fence.

(** A text that opens with a tagged fence and then a bare one. *)
Definition twice_opened : str :=
  lit "```python" ++ [nl] ++ fence ++ [nl] ++ lit "print(1)".

Definition self_deleting : str :=
  lit "import os; os.remove('temp_code.py')".

Definition sleeper : str := lit "import time; time.sleep(3600)".

(** A stand-in for the interpreter that knows four programs: a comment
    does nothing, [print(1)] prints, the self-deleting program removes
    the file it was started from, the sleeper outlives any timeout.  It
    rejects everything else as a syntax error, with exit status 1. *)
Definition toy_python3 : interpreter := fun argv timeout files =>
  match argv with
  | [_; script] =>
      match files !! script with
      | None =>
          ChildExit 2 [] (lit "python3: can't open file") files
      | Some program =>
          if bool_decide (program = lit "# Error generating code")
          then ChildExit 0 [] [] files
          else if bool_decide (program = lit "print(1)")
          then ChildExit 0 (lit "1" ++ [nl]) [] files
          else if bool_decide (program = self_deleting)
          then ChildExit 0 [] [] (delete script files)
          else if bool_decide (program = sleeper)
          then ChildOverrun (lit "partial") [] files
          else ChildExit 1 [] (lit "SyntaxError: invalid syntax") files
      end
  | _ => LaunchError (mkExn OtherException (lit "usage"))
  end.

(** No interpreter on the path. *)
Definition no_python3 : interpreter := fun _ _ _ =>
  LaunchError
    (mkExn FileNotFoundError
       (lit "[Errno 2] No such file or directory: 'python3'")).

(** A parser that rejects what has an unbalanced parenthesis at its end. *)
Definition toy_ast_parse : parser := fun code =>
  if ends_with (lit "(") code
  then Some (mkExn SyntaxError (lit "'(' was never closed"))
  else None.

(** A denylist search that finds nothing. *)
Definition no_search : searcher := fun _ _ => false.

(** ** The route [GET /status]

    The probe is the same call of the client with [max_tokens=10]; its
    answer is tested for truth, so the backend is a function to a
    response or to nothing ([None] stands for a falsy answer).  When the
    answer is falsy the function falls off its end and returns [None],
    here no body. *)

Record StatusBody : Type := mkStatus {
  status_line : str;
  status_model : str;
  llama_stack : str;
  status_error : option str
}.

Definition prober : Type :=
  list Message -> str -> N -> bool -> exn + option ChatCompletionResponse.

Section Status.

Variable probe : prober.

Definition probe_chat_completion (messages : list Message) (model_id : str)
    (max_tokens : N) (stream : bool) : M (option ChatCompletionResponse) :=
  match probe messages model_id max_tokens stream with
  | inl e => raise e
  | inr response => ret response
  end.

Definition status : M (option StatusBody) :=
  try_except
    (test_response <- probe_chat_completion
                        [ mkMessage (lit "Test connection") (lit "user") ]
                        LLAMA_MODEL 10 false ;;
     match test_response with
     | Some _ =>
         ret (Some (mkStatus (lit "online") LLAMA_MODEL (lit "connected")
                      None))
     | None => ret None
     end)
    (fun e =>
       ret (Some (mkStatus (lit "online") LLAMA_MODEL (lit "disconnected")
                    (Some (exc_str e))))).

End Status.

(** ** The copy of the executor in [src/test1.py]

    Its [clean_generated_code] is the text of the one above, character
    for character; its [execute_code] has a timeout of 10 seconds and
    prints more. *)

Module Test1.

Definition execute_code (python3 : interpreter) (code : str)
  : M ExecutionResult :=
  let code := clean_generated_code code in
  print (lit "Code to be executed:") ;;
  print (lit "-------------------") ;;
  print code ;;
  print (lit "-------------------") ;;
  let code_file := lit "temp_code.py" in
  open_write code_file code ;;
  try_except
    (print (lit "Executing with: python3 " ++ code_file) ;;
     result <- subprocess_run python3 [lit "python3"; code_file] 10 ;;
     print (lit "Return code: " ++ str_of_int (returncode result)) ;;
     print (lit "Stdout: " ++ stdout result) ;;
     print (lit "Stderr: " ++ stderr result) ;;
     os_remove code_file ;;
     if (returncode result =? 0)%Z then
       ret (mkResult true (lit "Command executed successfully")
                     (stdout result))
     else
       ret (mkResult false
              (lit "Error executing code (exit code "
               ++ str_of_int (returncode result) ++ lit ")")
              (stderr result)))
    (fun e =>
       match kind e with
       | TimeoutExpired _ _ =>
           remove_if_exists code_file ;;
           ret (mkResult false (lit "Command execution timed out")
                  (lit "Execution took too long and was terminated"))
       | _ =>
           remove_if_exists code_file ;;
           ret (mkResult false
                  (lit "Exception during execution: " ++ exc_str e)
                  (exc_str e))
       end).

End Test1.

(** ** More vocabulary and sample collaborators *)

(** The files as the child left them; the files at launch when no child
    was started. *)
Definition files_left (obs : child_obs) (at_launch_files : gmap str str)
  : gmap str str :=
  match obs with
  | ChildExit _ _ _ fs' => fs'
  | ChildOverrun _ _ fs' => fs'
  | LaunchError _ => at_launch_files
  | CaptureError _ fs' => fs'
  end.

(** [s.strip()]. *)
Definition strip (s : str) : str := rstrip (lstrip s).

(** No character of the line is dropped by [rstrip]. *)
Definition trimmed (line : str) : Prop := rstrip line = line.

(** A probe that cannot reach the backend, one that gets an answer, one
    that gets a falsy answer. *)
Definition probe_down : prober := fun _ _ _ _ =>
  inl (mkExn OtherException (lit "Connection refused")).

Definition probe_up : prober := fun _ _ _ _ =>
  inr (Some (mkChat (Some (mkCompletion (lit "ok"))))).

Definition probe_falsy : prober := fun _ _ _ _ => inr None.

(** A parser that fails outside the grammar: a null character is refused
    with a [ValueError], which is not a [SyntaxError]. *)
Definition null_ast_parse : parser := fun code =>
  if bool_decide (0 ∈ code)
  then Some (mkExn OtherException
               (lit "source code string cannot contain null bytes"))
  else toy_ast_parse code.

(** A world with one file in it. *)
Definition world_notes : World :=
  mkWorld {[ lit "notes.txt" := lit "keep" ]} [] [].

(** A text that ends with a lone surrogate, U+DC80. *)
Definition surrogate_comment : str := lit "print(1) # " ++ [56448].

(** A parser that, like [ast.parse], first encodes the text: a text
    with a surrogate is refused with a [UnicodeEncodeError]. *)
Definition utf8_ast_parse : parser := fun code =>
  if encodable code then null_ast_parse code
  else Some (mkExn UnicodeEncodeError
               (lit "'utf-8' codec can't encode character: surrogates not allowed")).

(** The body [{"command": command}] of a request. *)
Definition command_fields (command : str) : gmap str json :=
  {[ lit "command" := JString command ]}.

Definition command_request (command : str) : request :=
  inr (JObject (command_fields command)
         (lit "{'command': '" ++ command ++ lit "'}")).

(** A denylist search for the literal text of the pattern at the start
    of the code. *)
Definition prefix_search : searcher := fun pattern code =>
  starts_with (lit pattern) code.

(** ** Closed forms of the matcher on the three patterns *)

(** The length of the white space that [s] starts with. *)
Fixpoint span_len (s : str) : nat :=
  match s with
  | [] => O
  | c :: s' => if is_space c then S (span_len s') else O
  end.

(** The fence, then the end of the text. *)
Definition fence_here (s : str) : option nat :=
  if starts_with fence s && Re.at_end (drop 3 s) then Some 3%nat else None.

(** White space, the fence, the end of the text. *)
Fixpoint trailing_match (s : str) : option nat :=
  match s with
  | [] => None
  | c :: s' => if is_space c then S <$> trailing_match s' else fence_here s
  end.

(** * Facts about strings *)

Section Strings.

Lemma lstrip_drop s : drop (span_len s) s = lstrip s.
Proof.
  induction s as [|c s IH]; simpl; [reflexivity|].
  destruct (is_space c); simpl; auto.
Qed.

Lemma lstrip_decompose s :
  exists ws, s = ws ++ lstrip s /\ forallb is_space ws = true.
Proof.
  induction s as [|c s [ws [E F]]]; simpl.
  - exists []. auto.
  - destruct (is_space c) eqn:Hc.
    + exists (c :: ws). simpl. rewrite Hc, F. split; [congruence|reflexivity].
    + exists []. auto.
Qed.

Lemma lstrip_idem s : lstrip (lstrip s) = lstrip s.
Proof.
  induction s as [|c s IH]; simpl; [reflexivity|].
  destruct (is_space c) eqn:Hc; [assumption|].
  simpl. now rewrite Hc.
Qed.

Lemma starts_with_app p s : starts_with p (p ++ s) = true.
Proof.
  induction p as [|a p IH]; simpl; [reflexivity|].
  now rewrite N.eqb_refl, IH.
Qed.

Lemma starts_with_split p s :
  starts_with p s = true -> s = p ++ drop (length p) s.
Proof.
  revert s; induction p as [|a p IH]; intros [|b s]; simpl; try easy.
  intros H. apply andb_true_iff in H as [E H].
  apply N.eqb_eq in E. subst b. f_equal. auto.
Qed.

Lemma starts_with_trans p q s :
  starts_with p q = true -> starts_with q s = true -> starts_with p s = true.
Proof.
  revert q s; induction p as [|a p IH]; intros [|b q] [|c s]; simpl; try easy.
  intros H1 H2.
  apply andb_true_iff in H1 as [E1 H1]. apply andb_true_iff in H2 as [E2 H2].
  apply N.eqb_eq in E1, E2. subst. rewrite N.eqb_refl. simpl. eauto.
Qed.

Lemma ends_with_app p a : ends_with p (a ++ p) = true.
Proof.
  induction a as [|x a IH]; simpl.
  - destruct p; cbn [ends_with app];
      now rewrite bool_decide_eq_true_2.
  - rewrite IH. apply orb_true_r.
Qed.

Lemma ends_with_suffix p s : ends_with p s = true <-> p `suffix_of` s.
Proof.
  split.
  - induction s as [|x s IH]; simpl; intros H.
    + rewrite orb_false_r in H. apply bool_decide_eq_true_1 in H.
      subst. reflexivity.
    + apply orb_true_iff in H as [H|H].
      * apply bool_decide_eq_true_1 in H. subst. reflexivity.
      * apply suffix_cons_r. auto.
  - intros [k ->]. apply ends_with_app.
Qed.

Lemma starts_with_prefix p s : starts_with p s = true <-> p `prefix_of` s.
Proof.
  split.
  - intros H. exists (drop (length p) s). now apply starts_with_split.
  - intros [k ->]. apply starts_with_app.
Qed.

Lemma ends_with_cons p x s :
  ends_with p (x :: s) = false -> ends_with p s = false.
Proof. simpl. intros H. apply orb_false_iff in H. tauto. Qed.

End Strings.

(** * Facts about the matcher *)

Section Matcher.

Lemma match_space_star b s :
  Re.match_here [Re.SpaceStar] b s = Some (span_len s).
Proof.
  revert b; induction s as [|x s IH]; intros b; [reflexivity|].
  specialize (IH false). simpl in *.
  destruct (is_space x); [|reflexivity].
  now rewrite IH.
Qed.

Lemma match_tag_space tag b s :
  Re.match_here (map Re.Chr tag ++ [Re.SpaceStar]) b s
  = if starts_with tag s
    then Some (length tag + span_len (drop (length tag) s))%nat
    else None.
Proof.
  revert b s; induction tag as [|a tag IH]; intros b s.
  - apply match_space_star.
  - destruct s as [|x s]; [reflexivity|].
    cbn [map app Re.match_here starts_with].
    destruct (x =? a); [|reflexivity].
    rewrite IH. cbn [andb]. destruct (starts_with tag s); reflexivity.
Qed.

Lemma sub_scan_bol p n s : Re.sub_scan (Re.Bol :: p) false n s = drop n s.
Proof.
  revert n; induction s as [|x s IH]; intros [|n]; try reflexivity.
  - cbn. now rewrite IH.
  - cbn. apply IH.
Qed.

Lemma sub_scan_leading c tag s :
  Re.sub_scan (Re.Bol :: map Re.Chr (c :: tag) ++ [Re.SpaceStar]) true 0 s
  = if starts_with (c :: tag) s then lstrip (drop (length (c :: tag)) s)
    else s.
Proof.
  destruct s as [|x s]; [reflexivity|].
  cbn [Re.sub_scan].
  change (Re.match_here (Re.Bol :: ?p) true ?s) with (Re.match_here p true s).
  rewrite match_tag_space.
  destruct (starts_with (c :: tag) (x :: s)).
  - cbn [length Nat.add]. rewrite sub_scan_bol.
    cbn [drop]. rewrite <- lstrip_drop, drop_drop. reflexivity.
  - now rewrite sub_scan_bol.
Qed.

Lemma re_sub_python s :
  Re.re_sub "^```python\s*" s
  = if starts_with (lit "```python") s then lstrip (drop 9 s) else s.
Proof. apply (sub_scan_leading tick (lit "``python")). Qed.

Lemma re_sub_open s :
  Re.re_sub "^```\s*" s
  = if starts_with fence s then lstrip (drop 3 s) else s.
Proof. apply (sub_scan_leading tick (lit "``")). Qed.

(** The trailing pattern. *)

Lemma space_not_tick x : is_space x = true -> (x =? tick) = false.
Proof.
  intros H. destruct (N.eqb_spec x tick) as [->|]; [discriminate|reflexivity].
Qed.

Lemma match_fence_eol b s :
  Re.match_here [Re.Chr tick; Re.Chr tick; Re.Chr tick; Re.Eol] b s
  = fence_here s.
Proof.
  unfold fence_here. change fence with [tick; tick; tick].
  do 3 (destruct s as [|? s]; [reflexivity|];
        cbn [Re.match_here starts_with];
        destruct (_ =? tick); [cbn [andb]|reflexivity]).
  cbn [drop starts_with andb]. rewrite drop_0.
  destruct (Re.at_end s); reflexivity.
Qed.

Lemma match_trailing b s :
  Re.match_here (Re.compile "\s*```$") b s = trailing_match s.
Proof.
  change (Re.compile "\s*```$")
    with [Re.SpaceStar; Re.Chr tick; Re.Chr tick; Re.Chr tick; Re.Eol].
  revert b; induction s as [|x s IH]; intros b; [reflexivity|].
  specialize (IH false).
  cbn [Re.match_here] in *. cbn [trailing_match].
  destruct (is_space x) eqn:Hx.
  - rewrite IH. destruct (trailing_match s); [reflexivity|].
    now rewrite (space_not_tick x Hx).
  - apply (match_fence_eol b (x :: s)).
Qed.

Lemma fence_here_spec s n :
  fence_here s = Some n ->
  exists tail, s = fence ++ tail /\ (tail = [] \/ tail = [nl]) /\ n = 3%nat.
Proof.
  unfold fence_here. destruct (starts_with fence s) eqn:Hs; [|discriminate].
  cbn [andb]. destruct (Re.at_end (drop 3 s)) eqn:He; [|discriminate].
  intros [= <-]. exists (drop 3 s). split; [now apply starts_with_split|].
  split; [|reflexivity].
  destruct (drop 3 s) as [|c [|? ?]]; try discriminate; [now left|right].
  apply N.eqb_eq in He. now subst.
Qed.

Lemma trailing_match_spec s n :
  trailing_match s = Some n ->
  exists ws tail,
    s = ws ++ fence ++ tail /\ forallb is_space ws = true
    /\ (tail = [] \/ tail = [nl]) /\ n = (length ws + 3)%nat.
Proof.
  revert n; induction s as [|x s IH]; intros n; [discriminate|].
  cbn [trailing_match]. destruct (is_space x) eqn:Hx.
  - destruct (trailing_match s) as [m|]; [|discriminate].
    intros [= <-]. destruct (IH m eq_refl) as (ws & tail & -> & F & T & ->).
    exists (x :: ws), tail. cbn. rewrite Hx, F. auto.
  - intros H. apply fence_here_spec in H as (tail & -> & T & ->).
    exists [], tail. auto.
Qed.

Lemma trailing_match_complete ws tail :
  forallb is_space ws = true -> tail = [] \/ tail = [nl] ->
  trailing_match (ws ++ fence ++ tail) = Some (length ws + 3)%nat.
Proof.
  intros F T. induction ws as [|x ws IH].
  - destruct T as [-> | ->]; reflexivity.
  - cbn in F. apply andb_true_iff in F as [Hx F].
    cbn [app trailing_match length Nat.add]. rewrite Hx, (IH F). reflexivity.
Qed.

(** What the scan does once a match has been found: it drops the match
    and keeps the final newline, if there is one. *)
Lemma sub_scan_after_match b m tail :
  tail = [] \/ tail = [nl] ->
  Re.sub_scan (Re.compile "\s*```$") b (length m) (m ++ tail) = tail.
Proof.
  intros T. revert b. induction m as [|x m IH]; intros b.
  - destruct T as [-> | ->]; [reflexivity|].
    cbn [length app Re.sub_scan]. rewrite match_trailing. reflexivity.
  - cbn [length app Re.sub_scan]. apply IH.
Qed.

Lemma sub_scan_trailing b s :
  trailing_stripped s (Re.sub_scan (Re.compile "\s*```$") b 0 s).
Proof.
  revert b; induction s as [|x s IH]; intros b.
  - left. auto.
  - cbn [Re.sub_scan]. rewrite match_trailing.
    destruct (trailing_match (x :: s)) as [n|] eqn:Hm.
    + destruct (trailing_match_spec _ _ Hm) as (ws & tail & E & F & T & ->).
      rewrite Nat.add_comm. cbn [Nat.add].
      right. exists [], ws, tail. cbn [app]. repeat split; auto.
      assert (Hs : s = drop 1 (ws ++ fence) ++ tail).
      { rewrite <- drop_app_le by (rewrite length_app; cbn; lia).
        rewrite <- app_assoc, <- E. reflexivity. }
      rewrite Hs at 1.
      replace (S (S (length ws)))%nat with (length (drop 1 (ws ++ fence))).
      * now apply sub_scan_after_match.
      * rewrite length_drop, length_app. cbn. lia.
    + assert (Hx : forall ws tail, forallb is_space ws = true ->
                 tail = [] \/ tail = [nl] -> x :: s <> ws ++ fence ++ tail).
      { intros ws tail F T E. rewrite E, trailing_match_complete in Hm; auto.
        discriminate. }
      destruct (IH false) as [(H1 & H2 & ->) | (a & ws & tail & E & -> & F & R & T)].
      * left. cbn [ends_with]. rewrite H1, H2.
        rewrite !bool_decide_eq_false_2; auto.
        -- apply (Hx [] [nl]); auto.
        -- apply (Hx [] []); auto.
      * right. exists (x :: a), ws, tail. subst s. repeat split; auto.
        cbn [rstrip]. rewrite R. destruct a as [|y a]; [|reflexivity].
        destruct (is_space x) eqn:Hsp; [|reflexivity].
        exfalso. apply (Hx (x :: ws) tail); auto.
        cbn. now rewrite Hsp.
Qed.

Lemma re_sub_trailing s : trailing_stripped s (Re.re_sub "\s*```$" s).
Proof. apply sub_scan_trailing. Qed.

Lemma re_sub_trailing_id s :
  ends_with fence s = false -> ends_with (fence ++ [nl]) s = false ->
  Re.re_sub "\s*```$" s = s.
Proof.
  intros H1 H2.
  destruct (re_sub_trailing s) as [(_ & _ & E) | (a & ws & tail & E & _ & _ & _ & T)];
    [assumption|].
  exfalso. destruct T as [-> | ->].
  - rewrite app_nil_r in E.
    rewrite E, app_assoc, ends_with_app in H1. discriminate.
  - rewrite E, app_assoc, ends_with_app in H2. discriminate.
Qed.

End Matcher.

(** * Facts about lines *)

Section Lines.

Lemma rstrip_lines_map lines : rstrip_lines lines = map rstrip lines.
Proof.
  unfold rstrip_lines.
  enough (H : forall acc,
             fold_left (fun clean_lines line => clean_lines ++ [rstrip line])
               lines acc = acc ++ map rstrip lines) by apply H.
  induction lines as [|l lines IH]; intros acc; simpl.
  - now rewrite app_nil_r.
  - rewrite IH, <- app_assoc. reflexivity.
Qed.

Lemma rstrip_idem s : rstrip (rstrip s) = rstrip s.
Proof.
  induction s as [|c s IH]; [reflexivity|].
  cbn [rstrip]. destruct (rstrip s) as [|y r] eqn:E.
  - destruct (is_space c) eqn:Hc; [reflexivity|].
    cbn [rstrip]. now rewrite Hc.
  - cbn [rstrip] in *. now rewrite IH.
Qed.

Lemma rstrip_elem x s : x ∈ rstrip s -> x ∈ s.
Proof.
  induction s as [|c s IH]; [easy|].
  cbn [rstrip]. destruct (rstrip s) as [|y r].
  - destruct (is_space c); [easy|].
    intros H. apply list_elem_of_singleton in H. subst. left.
  - intros H. apply elem_of_cons in H as [-> | H]; [left|right; auto].
Qed.

Lemma split_nonempty sep s : split sep s <> [].
Proof.
  destruct s as [|c s]; [easy|]. cbn [split].
  destruct (c =? sep); [easy|]. destruct (split sep s); easy.
Qed.

Lemma split_lines_free sep s : Forall (fun l => sep ∉ l) (split sep s).
Proof.
  induction s as [|c s IH]; cbn [split].
  - constructor; [apply not_elem_of_nil|constructor].
  - destruct (N.eqb_spec c sep) as [->|Hc].
    + constructor; [apply not_elem_of_nil|assumption].
    + destruct (split sep s) as [|l ls]; inversion IH; subst.
      * constructor; [|constructor].
        intros H. apply list_elem_of_singleton in H. congruence.
      * constructor; [|assumption].
        intros H. apply elem_of_cons in H as [H|H]; [congruence|auto].
Qed.

Lemma split_app_sep sep l rest :
  sep ∉ l -> split sep (l ++ sep :: rest) = l :: split sep rest.
Proof.
  induction l as [|c l IH]; intros Hl; cbn [app split].
  - now rewrite N.eqb_refl.
  - apply not_elem_of_cons in Hl as [Hc Hl].
    destruct (N.eqb_spec c sep) as [->|_]; [congruence|].
    now rewrite (IH Hl).
Qed.

Lemma split_line sep l : sep ∉ l -> split sep l = [l].
Proof.
  induction l as [|c l IH]; intros Hl; cbn [split]; [reflexivity|].
  apply not_elem_of_cons in Hl as [Hc Hl].
  destruct (N.eqb_spec c sep) as [->|_]; [congruence|].
  now rewrite (IH Hl).
Qed.

Lemma split_join sep ls :
  ls <> [] -> Forall (fun l => sep ∉ l) ls ->
  split sep (join [sep] ls) = ls.
Proof.
  induction ls as [|l ls IH]; [congruence|].
  intros _ H. inversion H as [|? ? Hl Hls]; subst.
  destruct ls as [|l2 ls].
  - now apply split_line.
  - cbn [join] in *. cbn [app]. rewrite split_app_sep by assumption.
    f_equal. now apply IH.
Qed.

(** The lines of the cleaned code are the lines of what is left of the
    code after the three substitutions, each without its trailing white
    space. *)
Lemma clean_lines code :
  split nl (clean_generated_code code)
  = map rstrip
      (split nl
         (Re.re_sub "^```\s*"
            (Re.re_sub "\s*```$" (Re.re_sub "^```python\s*" code)))).
Proof.
  unfold clean_generated_code. cbv zeta. rewrite rstrip_lines_map.
  apply split_join.
  - intros H. apply map_eq_nil in H. now apply split_nonempty in H.
  - apply Forall_map.
    eapply Forall_impl; [apply split_lines_free|].
    intros l Hl H. apply Hl. now apply rstrip_elem.
Qed.

Lemma re_sub_python_stripped s :
  leading_stripped (lit "```python") s (Re.re_sub "^```python\s*" s).
Proof.
  rewrite re_sub_python.
  destruct (starts_with (lit "```python") s) eqn:H; [right|left; auto].
  destruct (lstrip_decompose (drop 9 s)) as (ws & E & F).
  exists ws. split; [|split; [assumption|apply lstrip_idem]].
  rewrite <- E. now apply starts_with_split in H.
Qed.

Lemma re_sub_open_stripped s :
  leading_stripped fence s (Re.re_sub "^```\s*" s).
Proof.
  rewrite re_sub_open.
  destruct (starts_with fence s) eqn:H; [right|left; auto].
  destruct (lstrip_decompose (drop 3 s)) as (ws & E & F).
  exists ws. split; [|split; [assumption|apply lstrip_idem]].
  rewrite <- E. now apply starts_with_split in H.
Qed.

End Lines.

(** * The Code Normalizer *)

Section Normalizer.

Example clean_unfenced : clean_generated_code (lit "print(1)") = lit "print(1)".
Proof. reflexivity. Qed.

Example clean_twice_closed :
  clean_generated_code twice_closed = lit "print(1)" ++ [nl] ++ fence
  /\ clean_generated_code (lit "print(1)" ++ [nl] ++ fence) = lit "print(1)".
Proof. split; reflexivity. Qed.

(** C6, as stated, fails: cleaning the text with two closing fences
    leaves one of them, and cleaning the result removes it. *)
Lemma clean_not_idempotent :
  clean_generated_code (clean_generated_code twice_closed)
  <> clean_generated_code twice_closed.
Proof. vm_compute. discriminate. Qed.

(** C6, amended: cleaning is idempotent on every input whose cleaned text
    carries no residual fence (none at its start, none at its end or
    before its final newline). *)
Theorem clean_idempotent_without_residual_fence (code : str) :
  has_residual_fence (clean_generated_code code) = false ->
  clean_generated_code (clean_generated_code code)
  = clean_generated_code code.
Proof.
  intros H. unfold has_residual_fence in H.
  apply orb_false_iff in H as [H H3]. apply orb_false_iff in H as [H1 H2].
  pose proof (clean_lines code) as L.
  remember (clean_generated_code code) as y eqn:Ey.
  assert (Hp : starts_with (lit "```python") y = false).
  { destruct (starts_with (lit "```python") y) eqn:E; [|reflexivity].
    rewrite <- H1. symmetry.
    now apply (starts_with_trans fence (lit "```python") y). }
  unfold clean_generated_code at 1. cbv zeta.
  rewrite re_sub_python, Hp, (re_sub_trailing_id y H2 H3), re_sub_open, H1.
  rewrite L, rstrip_lines_map, map_map.
  rewrite (map_ext _ rstrip) by (intros; apply rstrip_idem).
  rewrite Ey. unfold clean_generated_code. cbv zeta.
  now rewrite rstrip_lines_map.
Qed.

Lemma clean_idempotent_witness :
  has_residual_fence (clean_generated_code fenced_print) = false
  /\ clean_generated_code (clean_generated_code fenced_print)
     = clean_generated_code fenced_print.
Proof.
  split; [reflexivity|].
  apply (clean_idempotent_without_residual_fence fenced_print). reflexivity.
Defined.

(** C7, as stated, fails in its general part: the tagged fence and the
    bare fence that follows it are both stripped, where stripping only
    the outermost fence keeps the second one. *)
Lemma clean_strips_second_fence :
  clean_generated_code twice_opened = lit "print(1)"
  /\ normalize_outermost twice_opened = fence ++ [nl] ++ lit "print(1)"
  /\ clean_generated_code twice_opened <> normalize_outermost twice_opened
  /\ clean_generated_code twice_opened <> normalize_outermost' twice_opened.
Proof.
  split; [reflexivity|]. split; [reflexivity|].
  split; vm_compute; discriminate.
Qed.

(** C7, amended: on the fenced input of the specification the cleaned
    text is exactly [print(1)]; on every input the cleaner strips at most
    one leading tagged fence, then at most one trailing fence, then at
    most one leading bare fence, each with the white space next to it, and
    the lines of the result are the lines of what is left, in their
    order, without their trailing white space. *)
Theorem clean_fenced_input :
  clean_generated_code fenced_print = lit "print(1)"
  /\ forall code : str,
       exists c1 c2 core : str,
         leading_stripped (lit "```python") code c1
         /\ trailing_stripped c1 c2
         /\ leading_stripped fence c2 core
         /\ split nl (clean_generated_code code) = map rstrip (split nl core).
Proof.
  split; [reflexivity|]. intros code.
  exists (Re.re_sub "^```python\s*" code).
  exists (Re.re_sub "\s*```$" (Re.re_sub "^```python\s*" code)).
  exists (Re.re_sub "^```\s*"
            (Re.re_sub "\s*```$" (Re.re_sub "^```python\s*" code))).
  split; [apply re_sub_python_stripped|].
  split; [apply re_sub_trailing|].
  split; [apply re_sub_open_stripped|].
  apply clean_lines.
Qed.

End Normalizer.

(** * The Sandboxed Executor *)

Ltac run_monad :=
  unfold execute_code, launched, at_launch, remove_if_exists, subprocess_run,
    os_remove, os_path_exists, open_write, print, try_except, bind, ret,
    raise in *;
  cbn [fst snd fs console procs returncode stdout stderr kind exc_str] in *.

(** From the event of a launch: the code could be written, and the
    interpreter did [H] with it. *)
Ltac launch H En :=
  revert H; unfold launched;
  destruct (encodable (clean_generated_code _)) eqn:En; [|discriminate];
  intros [= H].

Section Executor.

Variable python3 : interpreter.

Lemma remove_if_exists_run path w :
  remove_if_exists path w
  = (Return tt, mkWorld (delete path (fs w)) (console w) (procs w)).
Proof.
  run_monad. destruct (fs w !! path) as [c|] eqn:E.
  - rewrite bool_decide_eq_true_2 by eauto. now rewrite E.
  - rewrite bool_decide_eq_false_2 by (intros [? ?]; congruence).
    rewrite delete_id by assumption. now destruct w.
Qed.

(** The child exits and the file is still there. *)
Lemma execute_exit_kept code w rc out err fs' c :
  launched python3 code w = Some (ChildExit rc out err fs') ->
  fs' !! lit "temp_code.py" = Some c ->
  execute_code python3 code w
  = (Return (if (rc =? 0)%Z
             then mkResult true (lit "Command executed successfully") out
             else mkResult false
                    (lit "Error executing code (exit code "
                     ++ str_of_int rc ++ lit ")") err),
     mkWorld (delete (lit "temp_code.py") fs')
       (console (at_launch code w) ++ [lit "running python3 now"])
       (procs w ++ [Spawned [lit "python3"; lit "temp_code.py"] 60; Exited rc])).
Proof.
  intros H K. launch H En. run_monad. rewrite En in *.
  cbn [fst snd fs console procs] in *. rewrite H.
  cbn [fs console procs returncode stdout stderr]. rewrite K.
  destruct (rc =? 0)%Z; reflexivity.
Qed.

(** The child exits and the file is gone. *)
Lemma execute_exit_removed code w rc out err fs' :
  launched python3 code w = Some (ChildExit rc out err fs') ->
  fs' !! lit "temp_code.py" = None ->
  execute_code python3 code w
  = (Return (mkResult false
               (lit "Exception during execution: "
                ++ lit "[Errno 2] No such file or directory: '"
                ++ lit "temp_code.py" ++ lit "'")
               (lit "[Errno 2] No such file or directory: '"
                ++ lit "temp_code.py" ++ lit "'")),
     mkWorld fs'
       (console (at_launch code w) ++ [lit "running python3 now"])
       (procs w ++ [Spawned [lit "python3"; lit "temp_code.py"] 60; Exited rc])).
Proof.
  intros H K. launch H En. run_monad. rewrite En in *.
  cbn [fst snd fs console procs] in *. rewrite H.
  cbn [fs console procs returncode stdout stderr]. rewrite K.
  cbn [kind exc_str fs]. rewrite K.
  rewrite bool_decide_eq_false_2 by (intros [? ?]; congruence).
  reflexivity.
Qed.

Ltac run_to_handler H En :=
  launch H En;
  unfold execute_code, at_launch, subprocess_run, open_write, print,
    try_except, bind, ret, handled in *;
  rewrite En in *; cbn [fst snd fs console procs] in *; rewrite H.

(** The child outlives the timeout. *)
Lemma execute_overrun code w out err fs' :
  launched python3 code w = Some (ChildOverrun out err fs') ->
  execute_code python3 code w
  = (Return (mkResult false (lit "Command execution timed out")
               (lit "Execution took too long and was terminated")),
     mkWorld (delete (lit "temp_code.py") fs')
       (console (at_launch code w))
       (procs w ++ [Spawned [lit "python3"; lit "temp_code.py"] 60; Killed])).
Proof.
  intros H. run_to_handler H En. cbn [kind].
  rewrite remove_if_exists_run. reflexivity.
Qed.

(** The interpreter cannot be launched. *)
Lemma execute_launch_error code w e :
  launched python3 code w = Some (LaunchError e) ->
  execute_code python3 code w
  = (Return (handled e),
     mkWorld (delete (lit "temp_code.py") (fs (at_launch code w)))
       (console (at_launch code w)) (procs w)).
Proof.
  intros H. run_to_handler H En.
  destruct (kind e); rewrite remove_if_exists_run; reflexivity.
Qed.

(** The output of the child cannot be captured. *)
Lemma execute_capture_error code w e fs' :
  launched python3 code w = Some (CaptureError e fs') ->
  execute_code python3 code w
  = (Return (handled e),
     mkWorld (delete (lit "temp_code.py") fs')
       (console (at_launch code w))
       (procs w ++ [Spawned [lit "python3"; lit "temp_code.py"] 60; Killed])).
Proof.
  intros H. run_to_handler H En.
  destruct (kind e); rewrite remove_if_exists_run; reflexivity.
Qed.

(** The code cannot be written to the file: the exception of [write]
    leaves [execute_code], which has no handler around it, no child is
    started and the file stays, empty. *)
Lemma execute_write_failure code w :
  launched python3 code w = None ->
  execute_code python3 code w
  = (Raise (mkExn UnicodeEncodeError
              (lit "'utf-8' codec can't encode character: surrogates not allowed")),
     mkWorld (<[lit "temp_code.py" := []]> (fs w))
       (console (at_launch code w)) (procs w)).
Proof.
  unfold launched. destruct (encodable (clean_generated_code code)) eqn:En;
    [discriminate|]. intros _.
  unfold execute_code, at_launch, open_write, print, bind.
  rewrite En. reflexivity.
Qed.



(** The code that can be encoded is written and handed to the
    interpreter. *)
Lemma launched_encodable code w :
  encodable (clean_generated_code code) = true ->
  launched python3 code w
  = Some (python3 [lit "python3"; lit "temp_code.py"] 60
            (<[lit "temp_code.py" := clean_generated_code code]> (fs w)))
  /\ fs (at_launch code w)
     = <[lit "temp_code.py" := clean_generated_code code]> (fs w).
Proof.
  intros En. unfold launched, at_launch, open_write, print, bind.
  rewrite En. auto.
Qed.

Lemma child_not_running b h argv t :
  child_running b (h ++ [Spawned argv t; Killed]) = false.
Proof.
  revert b; induction h as [|ev h IH]; intros b; [reflexivity|].
  destruct ev; cbn [app child_running]; apply IH.
Qed.

End Executor.

(** * Claims about the executor *)

(** C1 does not hold of the code: the self-deleting program exits with
    status 0, and [execute_code] reports a failure whose output is the
    text of the exception and not the captured standard output. *)
Theorem exit_zero_reported_as_failure :
  launched toy_python3 self_deleting world0 = Some (ChildExit 0 [] [] ∅)
  /\ fst (execute_code toy_python3 self_deleting world0)
     = Return
         (mkResult false
            (lit "Exception during execution: [Errno 2] No such file or directory: 'temp_code.py'")
            (lit "[Errno 2] No such file or directory: 'temp_code.py'")).
Proof. split; vm_compute; reflexivity. Qed.


(** C3: when the child outlives the timeout, [execute_code] returns the
    fixed failure record, whatever output the child had produced; the
    child has been killed and none is left running. *)
Theorem timeout_reported (python3 : interpreter) (code : str) (w : World)
    (out err : str) (fs' : gmap str str) :
  launched python3 code w = Some (ChildOverrun out err fs') ->
  exists w',
    execute_code python3 code w
    = (Return (mkResult false (lit "Command execution timed out")
                 (lit "Execution took too long and was terminated")), w')
    /\ procs w'
       = procs w ++ [Spawned [lit "python3"; lit "temp_code.py"] 60; Killed]
    /\ child_running false (procs w') = false.
Proof.
  intros H. rewrite (execute_overrun _ _ _ _ _ _ H).
  eexists. split; [reflexivity|]. split; [reflexivity|].
  apply child_not_running.
Qed.

Lemma timeout_reported_witness :
  exists w',
    execute_code toy_python3 sleeper world0
    = (Return (mkResult false (lit "Command execution timed out")
                 (lit "Execution took too long and was terminated")), w')
    /\ procs w'
       = procs world0
         ++ [Spawned [lit "python3"; lit "temp_code.py"] 60; Killed]
    /\ child_running false (procs w') = false.
Proof.
  apply (timeout_reported toy_python3 sleeper world0 (lit "partial") []
           (fs (at_launch sleeper world0))).
  vm_compute. reflexivity.
Defined.

(** C10: the delete on the normal path comes before the test of the exit
    status and is not guarded: when the child has removed the file,
    [execute_code] reports a failure with the text of the exception,
    whatever the exit status, 0 included. *)
Theorem removed_artifact_reported_as_exception (python3 : interpreter)
    (code : str) (w : World) (rc : Z) (out err : str) (fs' : gmap str str) :
  launched python3 code w = Some (ChildExit rc out err fs') ->
  fs' !! lit "temp_code.py" = None ->
  fst (execute_code python3 code w)
  = Return
      (mkResult false
         (lit "Exception during execution: [Errno 2] No such file or directory: 'temp_code.py'")
         (lit "[Errno 2] No such file or directory: 'temp_code.py'")).
Proof.
  intros H K. rewrite (execute_exit_removed _ _ _ _ _ _ _ H K). reflexivity.
Qed.

Lemma removed_artifact_witness :
  fst (execute_code toy_python3 self_deleting world0)
  = Return
      (mkResult false
         (lit "Exception during execution: [Errno 2] No such file or directory: 'temp_code.py'")
         (lit "[Errno 2] No such file or directory: 'temp_code.py'")).
Proof.
  apply (removed_artifact_reported_as_exception toy_python3 self_deleting
           world0 0 [] [] ∅); vm_compute; reflexivity.
Defined.

(** * The Code Generator, the Safety Gate and the Orchestrator *)

Section Pipeline.

Variable chat : backend.
Variable python3 : interpreter.

(** The request itself leaves the world as it is. *)
Lemma llm_request_world command w o w' :
  llm_request chat command w = (o, w') -> w' = w.
Proof.
  unfold llm_request, inference_chat_completion, get_content, bind, ret, raise.
  destruct (chat _ _ _) as [e|[[m|]]]; intros [= _ <-]; reflexivity.
Qed.

Lemma call_llm_failure command w e w' :
  llm_request chat command w = (Raise e, w') ->
  call_llm_for_code chat command w
  = (Return (lit "# Error generating code"),
     mkWorld (fs w) (console w ++ [lit "Error calling LLM: " ++ exc_str e])
       (procs w)).
Proof.
  intros H. pose proof (llm_request_world _ _ _ _ H) as ->.
  unfold call_llm_for_code, try_except. rewrite H. reflexivity.
Qed.


(** A body that is an object with a command: the handler is the
    generator, then the executor, then the answer. *)
Lemma process_command_object (data : gmap str json) shown command w :
  data !! lit "command" = Some command ->
  process_command chat python3 (inr (JObject data shown)) w
  = (generated_code <- call_llm_for_code chat (py_str command) ;;
     result <- execute_code python3 generated_code ;;
     ret (Json200 (mkResponse command generated_code result))) w.
Proof.
  intros D. unfold process_command, request_json, contains, getitem.
  unfold bind at 1. unfold ret at 1. cbn [truthy].
  rewrite bool_decide_eq_false_2
    by (intros ->; rewrite lookup_empty in D; discriminate).
  cbn [negb]. unfold bind at 1. unfold bind at 1. unfold ret at 1.
  rewrite bool_decide_eq_true_2 by (rewrite D; eauto).
  unfold ret at 1. cbn [negb]. unfold bind at 1. rewrite D. reflexivity.
Qed.

Lemma process_command_run (data : gmap str json) shown command w code w1 r
    w2 :
  data !! lit "command" = Some command ->
  call_llm_for_code chat (py_str command) w = (Return code, w1) ->
  execute_code python3 code w1 = (Return r, w2) ->
  process_command chat python3 (inr (JObject data shown)) w
  = (Return (Json200 (mkResponse command code r)), w2).
Proof.
  intros D G E. rewrite (process_command_object _ _ _ _ D).
  unfold bind. rewrite G, E. reflexivity.
Qed.


(** The interpreter sees the same files whatever the console holds. *)
Lemma launched_files code w w' :
  fs w' = fs w -> launched python3 code w' = launched python3 code w.
Proof.
  intros H. unfold launched, at_launch, open_write, print, bind.
  destruct (encodable (clean_generated_code code)); [|reflexivity].
  cbn [snd fs]. now rewrite H.
Qed.

End Pipeline.

(** * Claims about the generator, the safety check and the orchestrator *)

(** C5, as stated, fails: a text with a lone surrogate does not parse,
    [ast.parse] raises a [UnicodeEncodeError] on it, which the handler
    of [SyntaxError] does not catch, and the safety check raises instead
    of answering [False]. *)
Lemma parse_failure_not_always_rejected :
  utf8_ast_parse surrogate_comment <> None
  /\ is_code_safe utf8_ast_parse no_search surrogate_comment world0
     <> (Return false, world0)
  /\ fst (is_code_safe utf8_ast_parse no_search surrogate_comment world0)
     = Raise
         (mkExn UnicodeEncodeError
            (lit "'utf-8' codec can't encode character: surrogates not allowed")).
Proof. repeat split; vm_compute; discriminate. Qed.

(** C5, amended: when [ast.parse] rejects the code with a [SyntaxError],
    the safety check answers [False], whatever the denylist holds and
    whatever the search finds; so does [is_code_safe], whose denylist is
    empty. *)
Theorem parse_failure_rejected (ast_parse : parser) (re_search : searcher)
    (dangerous_patterns : list string) (code : str) (e : exn) (w : World) :
  ast_parse code = Some e ->
  kind e = SyntaxError ->
  is_code_safe_with ast_parse re_search dangerous_patterns code w
  = (Return false, w)
  /\ is_code_safe ast_parse re_search code w = (Return false, w).
Proof.
  intros H K. unfold is_code_safe, is_code_safe_with.
  cbn [any_pattern_matches]. unfold try_except, raise, ret.
  rewrite H, K.
  destruct (any_pattern_matches re_search dangerous_patterns code); auto.
Qed.

Lemma parse_failure_rejected_witness :
  is_code_safe_with toy_ast_parse no_search ["os\.remove"; "eval\("]%string
    (lit "this is not valid code (") world0
  = (Return false, world0)
  /\ is_code_safe toy_ast_parse no_search (lit "this is not valid code (")
       world0
     = (Return false, world0).
Proof.
  apply (parse_failure_rejected toy_ast_parse no_search
           ["os\.remove"; "eval\("]%string (lit "this is not valid code (")
           (mkExn SyntaxError (lit "'(' was never closed")) world0);
    reflexivity.
Defined.

(** C8: when the request to the backend raises, be it an error of the
    client or a response without a completion, [call_llm_for_code] does
    not raise: it logs the error and returns the sentinel text. *)
Theorem generator_failure_returns_sentinel (chat : backend) (command : str)
    (w : World) (e : exn) (w' : World) :
  llm_request chat command w = (Raise e, w') ->
  exists w1,
    call_llm_for_code chat command w
    = (Return (lit "# Error generating code"), w1)
    /\ console w1 = console w ++ [lit "Error calling LLM: " ++ exc_str e].
Proof.
  intros H. rewrite (call_llm_failure _ _ _ _ _ H).
  eexists. split; reflexivity.
Qed.

Lemma generator_failure_witness :
  exists w1,
    call_llm_for_code backend_down (lit "open Safari") world0
    = (Return (lit "# Error generating code"), w1)
    /\ console w1
       = console world0 ++ [lit "Error calling LLM: " ++ lit "Connection refused"].
Proof.
  apply (generator_failure_returns_sentinel backend_down (lit "open Safari")
           world0 (mkExn OtherException (lit "Connection refused")) world0).
  reflexivity.
Defined.

Example malformed_response_returns_sentinel :
  fst (call_llm_for_code backend_malformed (lit "open Safari") world0)
  = Return (lit "# Error generating code").
Proof. reflexivity. Qed.



(** C9: when the generation fails and the interpreter runs the sentinel,
    a comment, to exit status 0 with nothing on its standard output, the
    pipeline answers with a successful execution and an empty output, and
    the answer is the one it gives when the backend itself writes that
    comment. *)
Theorem failed_generation_reported_as_success (chat : backend)
    (python3 : interpreter) (data : gmap str json) (shown : str)
    (command : json) (w : World) (e : exn) (w' : World) (err c : str)
    (fs' : gmap str str) :
  data !! lit "command" = Some command ->
  llm_request chat (py_str command) w = (Raise e, w') ->
  launched python3 (lit "# Error generating code") w
  = Some (ChildExit 0 [] err fs') ->
  fs' !! lit "temp_code.py" = Some c ->
  fst (process_command chat python3 (inr (JObject data shown)) w)
  = Return
      (Json200
         (mkResponse command (lit "# Error generating code")
            (mkResult true (lit "Command executed successfully") [])))
  /\ fst (process_command (backend_says (lit "# Error generating code"))
            python3 (inr (JObject data shown)) w)
     = fst (process_command chat python3 (inr (JObject data shown)) w).
Proof.
  intros D H L K.
  pose proof (call_llm_failure chat _ _ _ _ H) as G.
  set (w1 := mkWorld _ _ _) in G.
  assert (L1 : launched python3 (lit "# Error generating code") w1
               = Some (ChildExit 0 [] err fs')).
  { rewrite <- L. now apply launched_files. }
  pose proof (execute_exit_kept python3 _ _ _ _ _ _ _ L1 K) as E1.
  pose proof (execute_exit_kept python3 _ _ _ _ _ _ _ L K) as E2.
  cbn [Z.eqb] in E1, E2.
  rewrite (process_command_run chat python3 _ _ _ _ _ _ _ _ D G E1).
  split; [reflexivity|].
  rewrite (process_command_run (backend_says (lit "# Error generating code"))
             python3 _ _ _ _ _ _ _ _ D eq_refl E2).
  reflexivity.
Qed.

Lemma failed_generation_witness :
  fst (process_command backend_down toy_python3
         (command_request (lit "open Safari")) world0)
  = Return
      (Json200
         (mkResponse (JString (lit "open Safari"))
            (lit "# Error generating code")
            (mkResult true (lit "Command executed successfully") [])))
  /\ fst (process_command (backend_says (lit "# Error generating code"))
            toy_python3 (command_request (lit "open Safari")) world0)
     = fst (process_command backend_down toy_python3
              (command_request (lit "open Safari")) world0).
Proof.
  apply (failed_generation_reported_as_success backend_down toy_python3
           (command_fields (lit "open Safari"))
           (lit "{'command': '" ++ lit "open Safari" ++ lit "'}")
           (JString (lit "open Safari")) world0
           (mkExn OtherException (lit "Connection refused")) world0
           [] (lit "# Error generating code")
           (fs (at_launch (lit "# Error generating code") world0)));
    vm_compute; reflexivity.
Defined.

(** * More facts about strings and the normalizer *)

Section MoreStrings.

Lemma sub_scan_length p b n s : (length (Re.sub_scan p b n s) <= length s)%nat.
Proof.
  revert b n; induction s as [|x s IH]; intros b n; [reflexivity|].
  cbn [Re.sub_scan length]. destruct n as [|n].
  - destruct (Re.match_here p b (x :: s)) as [[|m]|]; cbn [length];
      try (specialize (IH false 0%nat); lia).
    specialize (IH false m). lia.
  - specialize (IH false n). lia.
Qed.

Lemma re_sub_length pattern s : (length (Re.re_sub pattern s) <= length s)%nat.
Proof. apply sub_scan_length. Qed.

Lemma rstrip_length s : (length (rstrip s) <= length s)%nat.
Proof.
  induction s as [|c s IH]; [reflexivity|].
  cbn [rstrip]. destruct (rstrip s); [destruct (is_space c)|]; cbn [length] in *; lia.
Qed.

Lemma join_cons sep l ls :
  ls <> [] -> join sep (l :: ls) = l ++ sep ++ join sep ls.
Proof. destruct ls; [congruence|reflexivity]. Qed.

Lemma join_split sep s : join [sep] (split sep s) = s.
Proof.
  induction s as [|c s IH]; [reflexivity|].
  cbn [split]. destruct (N.eqb_spec c sep) as [->|_].
  - rewrite join_cons by apply split_nonempty. now rewrite IH.
  - destruct (split sep s) as [|l ls] eqn:E; [now apply split_nonempty in E|].
    destruct ls as [|l2 ls]; cbn [join] in *; now rewrite <- IH.
Qed.

Lemma join_rstrip_length sep ls :
  (length (join sep (map rstrip ls)) <= length (join sep ls))%nat.
Proof.
  induction ls as [|l ls IH]; [reflexivity|].
  destruct ls as [|l2 ls].
  - apply rstrip_length.
  - cbn [map join] in *. rewrite !length_app.
    pose proof (rstrip_length l). lia.
Qed.

Lemma rstrip_app_space a ws :
  forallb is_space ws = true -> rstrip (a ++ ws) = rstrip a.
Proof.
  intros F. assert (W : rstrip ws = []).
  { induction ws as [|c ws IH]; [reflexivity|].
    cbn in F. apply andb_true_iff in F as [Hc F].
    cbn [rstrip]. now rewrite (IH F), Hc. }
  induction a as [|c a IH]; [assumption|].
  cbn [app rstrip]. now rewrite IH.
Qed.

Lemma rstrip_app_trimmed a b : rstrip a = a -> rstrip (a ++ b) = a ++ rstrip b.
Proof.
  induction a as [|c a IH]; [reflexivity|].
  cbn [app rstrip]. destruct (rstrip a) as [|y r] eqn:E.
  - destruct (is_space c) eqn:Hc; [discriminate|].
    intros [= <-]. cbn [app]. destruct (rstrip b); reflexivity.
  - intros [= Ha]. rewrite IH by assumption. rewrite <- Ha. reflexivity.
Qed.

Lemma rstrip_decompose s :
  exists ws, s = rstrip s ++ ws /\ forallb is_space ws = true.
Proof.
  induction s as [|c s (ws & E & F)]; [exists []; auto|].
  cbn [rstrip]. destruct (rstrip s) as [|y r] eqn:R.
  - destruct (is_space c) eqn:Hc.
    + exists (c :: ws). cbn. rewrite Hc, F. split; [now rewrite E at 1|reflexivity].
    + exists ws. split; [now rewrite E at 1|assumption].
  - exists ws. split; [now rewrite E at 1|assumption].
Qed.

Lemma lstrip_app_kept a b : lstrip b = b -> lstrip (a ++ b) = lstrip a ++ b.
Proof.
  intros B. induction a as [|c a IH]; [assumption|].
  cbn [app lstrip]. destruct (is_space c); [assumption|reflexivity].
Qed.

Lemma strip_app_space a ws :
  forallb is_space ws = true -> rstrip (lstrip (a ++ ws)) = rstrip (lstrip a).
Proof.
  intros F. induction a as [|c a IH].
  - cbn [app]. destruct (lstrip_decompose ws) as (v & E & _).
    assert (L : lstrip ws = []).
    { clear E. induction ws as [|x ws IHw]; [reflexivity|].
      cbn in F. apply andb_true_iff in F as [Hx F]. cbn [lstrip].
      rewrite Hx. auto. }
    now rewrite L.
  - cbn [app lstrip]. destruct (is_space c); [assumption|].
    now apply (rstrip_app_space (c :: a)).
Qed.

Lemma lstrip_rstrip_cons_space c s :
  is_space c = true -> lstrip (rstrip (c :: s)) = lstrip (rstrip s).
Proof.
  intros Hc. cbn [rstrip]. destruct (rstrip s) as [|y r].
  - now rewrite Hc.
  - cbn [lstrip]. now rewrite Hc.
Qed.

Lemma starts_with_app_l p s t :
  starts_with p s = true -> starts_with p (s ++ t) = true.
Proof.
  revert s; induction p as [|a p IH]; intros [|b s]; cbn; try easy.
  intros H. apply andb_true_iff in H as [-> H]. cbn. auto.
Qed.

Lemma starts_with_rstrip p s :
  starts_with p s = false -> starts_with p (rstrip s) = false.
Proof.
  intros H. destruct (starts_with p (rstrip s)) eqn:E; [|reflexivity].
  destruct (rstrip_decompose s) as (ws & Es & _).
  rewrite Es, (starts_with_app_l _ _ ws E) in H. discriminate.
Qed.

(** The trailing substitution on a text that ends with the fence. *)
Lemma re_sub_trailing_fenced u :
  Re.re_sub "\s*```$" (u ++ fence) = rstrip u.
Proof.
  destruct (re_sub_trailing (u ++ fence))
    as [(H & _) | (a & ws & tail & E & -> & F & R & [-> | ->])].
  - rewrite ends_with_app in H. discriminate.
  - rewrite !app_nil_r in *. rewrite app_assoc in E.
    apply app_inv_tail in E. subst u.
    now rewrite rstrip_app_space, R.
  - exfalso. assert (L : last (u ++ fence) = Some tick)
      by (now rewrite last_app).
    rewrite E, !app_assoc, last_snoc in L. discriminate.
Qed.


Lemma lstrip_space_app ws s :
  forallb is_space ws = true -> lstrip (ws ++ s) = lstrip s.
Proof.
  induction ws as [|c ws IH]; [reflexivity|].
  cbn. intros F. apply andb_true_iff in F as [-> F]. auto.
Qed.

Lemma lstrip_rstrip_space_app ws s :
  forallb is_space ws = true -> lstrip (rstrip (ws ++ s)) = lstrip (rstrip s).
Proof.
  induction ws as [|c ws IH]; [reflexivity|].
  cbn [forallb app]. intros F. apply andb_true_iff in F as [Hc F].
  rewrite lstrip_rstrip_cons_space by assumption. auto.
Qed.

Lemma strip_comm s : lstrip (rstrip s) = strip s.
Proof.
  unfold strip. induction s as [|c s IH]; [reflexivity|].
  destruct (is_space c) eqn:Hc.
  - rewrite lstrip_rstrip_cons_space by assumption. cbn [lstrip].
    now rewrite Hc.
  - cbn [lstrip]. rewrite Hc. cbn [rstrip].
    destruct (rstrip s); rewrite ?Hc; cbn [lstrip]; now rewrite ?Hc.
Qed.

Lemma subs_unfenced y :
  has_residual_fence y = false ->
  Re.re_sub "^```\s*" (Re.re_sub "\s*```$" (Re.re_sub "^```python\s*" y)) = y.
Proof.
  intros H. unfold has_residual_fence in H.
  apply orb_false_iff in H as [H H3]. apply orb_false_iff in H as [H1 H2].
  assert (Hp : starts_with (lit "```python") y = false).
  { destruct (starts_with (lit "```python") y) eqn:E; [|reflexivity].
    rewrite <- H1. symmetry.
    now apply (starts_with_trans fence (lit "```python") y). }
  now rewrite re_sub_python, Hp, (re_sub_trailing_id y H2 H3), re_sub_open, H1.
Qed.

End MoreStrings.

(** * Further properties of the normalizer *)

(** X1: the cleaned text is never longer than the text: the cleaner only
    removes characters. *)
Theorem clean_never_longer (code : str) :
  (length (clean_generated_code code) <= length code)%nat.
Proof.
  unfold clean_generated_code. cbv zeta. rewrite rstrip_lines_map.
  etransitivity; [apply join_rstrip_length|]. rewrite join_split.
  do 3 (etransitivity; [apply re_sub_length|]). reflexivity.
Qed.

(** X2: no line of the cleaned text ends with white space. *)
Theorem clean_lines_trimmed (code : str) :
  Forall trimmed (split nl (clean_generated_code code)).
Proof.
  rewrite clean_lines. apply Forall_map, Forall_true.
  intros l. apply rstrip_idem.
Qed.

(** X3: on a text without a fence at its start, at its end or before
    its final newline, the cleaner only trims the lines; when no line
    ends with white space either, the text comes back unchanged. *)
Theorem clean_unfenced_text (code : str) :
  has_residual_fence code = false ->
  clean_generated_code code = join [nl] (map rstrip (split nl code))
  /\ (Forall trimmed (split nl code) -> clean_generated_code code = code).
Proof.
  intros H.
  assert (E : clean_generated_code code
              = join [nl] (map rstrip (split nl code))).
  { unfold clean_generated_code. cbv zeta.
    now rewrite (subs_unfenced code H), rstrip_lines_map. }
  split; [assumption|]. intros T. rewrite E.
  rewrite <- (join_split nl code) at 2. f_equal.
  rewrite <- (map_id (split nl code)) at 2.
  apply map_ext_Forall. exact T.
Qed.

Lemma clean_unfenced_text_witness :
  clean_generated_code (lit "x = 1  " ++ [nl] ++ lit "print(x)")
  = join [nl] (map rstrip (split nl (lit "x = 1  " ++ [nl] ++ lit "print(x)")))
  /\ (Forall trimmed (split nl (lit "x = 1  " ++ [nl] ++ lit "print(x)")) ->
      clean_generated_code (lit "x = 1  " ++ [nl] ++ lit "print(x)")
      = lit "x = 1  " ++ [nl] ++ lit "print(x)").
Proof.
  apply (clean_unfenced_text (lit "x = 1  " ++ [nl] ++ lit "print(x)")).
  reflexivity.
Defined.

(** X4: a body wrapped in a tagged fence, whatever white space separates
    it from the two fences, is cleaned to the stripped body with its
    lines trimmed, provided the body does not itself open with a fence. *)
Theorem clean_python_fenced (ws1 body ws2 : str) :
  forallb is_space ws1 = true ->
  forallb is_space ws2 = true ->
  starts_with fence (lstrip body) = false ->
  clean_generated_code (lit "```python" ++ ws1 ++ body ++ ws2 ++ fence)
  = join [nl] (map rstrip (split nl (strip body))).
Proof.
  intros F1 F2 H. unfold clean_generated_code. cbv zeta.
  rewrite re_sub_python, starts_with_app.
  change 9%nat with (length (lit "```python")). rewrite drop_app_length.
  rewrite (lstrip_space_app ws1) by assumption.
  rewrite (app_assoc body ws2 fence), lstrip_app_kept by reflexivity.
  rewrite re_sub_trailing_fenced, strip_app_space by assumption.
  rewrite re_sub_open, (starts_with_rstrip _ _ H).
  now rewrite rstrip_lines_map.
Qed.

(** X5: a body wrapped in a bare fence, with some white space after the
    opening fence, is cleaned to the stripped body with its lines
    trimmed. *)
Theorem clean_bare_fenced (ws1 body ws2 : str) :
  forallb is_space ws1 = true ->
  (0 < length ws1)%nat ->
  forallb is_space ws2 = true ->
  clean_generated_code (fence ++ ws1 ++ body ++ ws2 ++ fence)
  = join [nl] (map rstrip (split nl (strip body))).
Proof.
  intros F1 N1 F2. unfold clean_generated_code. cbv zeta.
  assert (P : starts_with (lit "```python")
                (fence ++ ws1 ++ body ++ ws2 ++ fence) = false).
  { destruct ws1 as [|c ws1]; [cbn in N1; lia|].
    cbn [forallb] in F1. apply andb_true_iff in F1 as [Hc _].
    change (lit "```python") with ([tick; tick; tick] ++ 112 :: lit "ython").
    change fence with [tick; tick; tick]. cbn [app starts_with].
    rewrite !N.eqb_refl. cbn [andb].
    destruct (N.eqb_spec c 112) as [->|]; [discriminate|reflexivity]. }
  rewrite re_sub_python, P.
  replace (fence ++ ws1 ++ body ++ ws2 ++ fence)
    with ((fence ++ (ws1 ++ body) ++ ws2) ++ fence)
    by (now rewrite <- !app_assoc).
  rewrite re_sub_trailing_fenced.
  rewrite rstrip_app_trimmed by reflexivity.
  rewrite rstrip_app_space by assumption.
  rewrite re_sub_open, starts_with_app.
  change 3%nat with (length fence). rewrite drop_app_length.
  rewrite lstrip_rstrip_space_app by assumption.
  now rewrite strip_comm, rstrip_lines_map.
Qed.

Lemma clean_python_fenced_witness :
  clean_generated_code
    (lit "```python" ++ [nl] ++ (lit "  x = 1  " ++ [nl] ++ lit "print(x)")
     ++ [nl; nl] ++ fence)
  = join [nl]
      (map rstrip
         (split nl (strip (lit "  x = 1  " ++ [nl] ++ lit "print(x)")))).
Proof.
  apply (clean_python_fenced [nl]
           (lit "  x = 1  " ++ [nl] ++ lit "print(x)") [nl; nl]);
    reflexivity.
Defined.

Lemma clean_bare_fenced_witness :
  clean_generated_code
    (fence ++ [nl] ++ (lit "python = 1  " ++ [nl] ++ lit "print(python)")
     ++ [nl] ++ fence)
  = join [nl]
      (map rstrip
         (split nl (strip (lit "python = 1  " ++ [nl] ++ lit "print(python)")))).
Proof.
  apply (clean_bare_fenced [nl]
           (lit "python = 1  " ++ [nl] ++ lit "print(python)") [nl]);
    [reflexivity | simpl; lia | reflexivity].
Defined.

(** * Further properties of the executor *)

Lemma child_running_app b h k :
  child_running b (h ++ k) = child_running (child_running b h) k.
Proof.
  revert b; induction h as [|ev h IH]; intros b; [reflexivity|].
  destruct ev; cbn [app child_running]; apply IH.
Qed.

(** The events that a launch adds to the history of the processes. *)
Lemma execute_code_procs (python3 : interpreter) code w :
  procs (snd (execute_code python3 code w))
  = procs w
    ++ match launched python3 code w with
       | Some (ChildExit rc _ _ _) =>
           [Spawned [lit "python3"; lit "temp_code.py"] 60; Exited rc]
       | Some (ChildOverrun _ _ _) | Some (CaptureError _ _) =>
           [Spawned [lit "python3"; lit "temp_code.py"] 60; Killed]
       | Some (LaunchError _) | None => []
       end.
Proof.
  destruct (launched python3 code w)
    as [[rc out err fs'|out err fs'|e|e fs']|] eqn:H.
  - destruct (fs' !! lit "temp_code.py") as [c|] eqn:K.
    + now rewrite (execute_exit_kept _ _ _ _ _ _ _ _ H K).
    + now rewrite (execute_exit_removed _ _ _ _ _ _ _ H K).
  - now rewrite (execute_overrun _ _ _ _ _ _ H).
  - rewrite (execute_launch_error _ _ _ _ H). cbn [snd procs].
    now rewrite app_nil_r.
  - now rewrite (execute_capture_error _ _ _ _ _ H).
  - rewrite (execute_write_failure _ _ _ H). cbn [snd procs].
    now rewrite app_nil_r.
Qed.

(** The files that [execute_code] leaves after a launch. *)
Lemma execute_code_files (python3 : interpreter) code w obs :
  launched python3 code w = Some obs ->
  fs (snd (execute_code python3 code w))
  = delete (lit "temp_code.py") (files_left obs (fs (at_launch code w))).
Proof.
  intros H. destruct obs as [rc out err fs'|out err fs'|e|e fs'];
    cbn [files_left].
  - destruct (fs' !! lit "temp_code.py") as [c|] eqn:K.
    + now rewrite (execute_exit_kept _ _ _ _ _ _ _ _ H K).
    + rewrite (execute_exit_removed _ _ _ _ _ _ _ H K).
      cbn [snd fs]. now rewrite delete_id.
  - now rewrite (execute_overrun _ _ _ _ _ _ H).
  - now rewrite (execute_launch_error _ _ _ _ H).
  - now rewrite (execute_capture_error _ _ _ _ _ H).
Qed.

(** X10: when the child exits and has left the file in place, the result
    says success exactly when the exit status is 0; its output is the
    captured standard output then, the captured standard error otherwise,
    and the message of a failure carries the exit status. *)
Theorem completed_run_reported (python3 : interpreter) (code : str)
    (w : World) (rc : Z) (out err c : str) (fs' : gmap str str) :
  launched python3 code w = Some (ChildExit rc out err fs') ->
  fs' !! lit "temp_code.py" = Some c ->
  exists r w',
    execute_code python3 code w = (Return r, w')
    /\ (success r = true <-> rc = 0%Z)
    /\ output r = (if (rc =? 0)%Z then out else err)
    /\ message r
       = (if (rc =? 0)%Z then lit "Command executed successfully"
          else lit "Error executing code (exit code "
               ++ str_of_int rc ++ lit ")").
Proof.
  intros H K. rewrite (execute_exit_kept _ _ _ _ _ _ _ _ H K).
  eexists _, _. split; [reflexivity|].
  destruct (Z.eqb_spec rc 0); cbn [success output message];
    repeat split; auto; try discriminate; congruence.
Qed.

Lemma completed_run_witness :
  exists r w',
    execute_code toy_python3 (lit "foo(") world0 = (Return r, w')
    /\ (success r = true <-> 1%Z = 0%Z)
    /\ output r = (if (1 =? 0)%Z then [] else lit "SyntaxError: invalid syntax")
    /\ message r
       = (if (1 =? 0)%Z then lit "Command executed successfully"
          else lit "Error executing code (exit code "
               ++ str_of_int 1 ++ lit ")").
Proof.
  apply (completed_run_reported toy_python3 (lit "foo(") world0 1 []
           (lit "SyntaxError: invalid syntax") (lit "foo(")
           (fs (at_launch (lit "foo(") world0)));
    vm_compute; reflexivity.
Defined.

(** X11: success is never reported wrongly: a result with [success]
    true means that the child exited with status 0, that the output is
    its captured standard output and that it left the file in place. *)
Theorem success_means_exit_zero (python3 : interpreter) (code : str)
    (w : World) (r : ExecutionResult) (w' : World) :
  execute_code python3 code w = (Return r, w') ->
  success r = true ->
  exists err fs',
    launched python3 code w = Some (ChildExit 0 (output r) err fs')
    /\ is_Some (fs' !! lit "temp_code.py")
    /\ message r = lit "Command executed successfully".
Proof.
  intros E S.
  destruct (launched python3 code w)
    as [[rc out err fs'|out err fs'|e|e fs']|] eqn:H;
    [| | | |rewrite (execute_write_failure _ _ _ H) in E; discriminate].
  - destruct (fs' !! lit "temp_code.py") as [c|] eqn:K.
    + rewrite (execute_exit_kept _ _ _ _ _ _ _ _ H K) in E.
      injection E as <- <-.
      destruct (Z.eqb_spec rc 0) as [->|]; [|discriminate].
      exists err, fs'. rewrite K. eauto.
    + rewrite (execute_exit_removed _ _ _ _ _ _ _ H K) in E.
      injection E as <- <-. discriminate.
  - rewrite (execute_overrun _ _ _ _ _ _ H) in E.
    injection E as <- <-. discriminate.
  - rewrite (execute_launch_error _ _ _ _ H) in E. injection E as <- <-.
    unfold handled in S. destruct (kind e); discriminate.
  - rewrite (execute_capture_error _ _ _ _ _ H) in E. injection E as <- <-.
    unfold handled in S. destruct (kind e); discriminate.
Qed.

Lemma success_means_exit_zero_witness :
  exists err fs',
    launched toy_python3 fenced_print world0
    = Some (ChildExit 0 (lit "1" ++ [nl]) err fs')
    /\ is_Some (fs' !! lit "temp_code.py")
    /\ lit "Command executed successfully"
       = lit "Command executed successfully".
Proof.
  apply (success_means_exit_zero toy_python3 fenced_print world0
           (mkResult true (lit "Command executed successfully")
              (lit "1" ++ [nl]))
           (snd (execute_code toy_python3 fenced_print world0)));
    vm_compute; reflexivity.
Defined.

(** X12: when the interpreter cannot be launched, the result is the
    failure built from the exception, no child process is recorded, and
    the file system is the one before the call without [temp_code.py]. *)
Theorem launch_failure_reported (python3 : interpreter) (code : str)
    (w : World) (e : exn) :
  launched python3 code w = Some (LaunchError e) ->
  exists w',
    execute_code python3 code w = (Return (handled e), w')
    /\ procs w' = procs w
    /\ fs w' = delete (lit "temp_code.py") (fs w).
Proof.
  intros H. rewrite (execute_launch_error _ _ _ _ H).
  eexists. split; [reflexivity|]. split; [reflexivity|].
  cbn [fs]. launch H En.
  destruct (launched_encodable python3 code w En) as [_ ->].
  apply delete_insert_eq.
Qed.

Lemma launch_failure_witness :
  exists w',
    execute_code no_python3 (lit "print(1)") world0
    = (Return
         (handled
            (mkExn FileNotFoundError
               (lit "[Errno 2] No such file or directory: 'python3'"))), w')
    /\ procs w' = procs world0
    /\ fs w' = delete (lit "temp_code.py") (fs world0).
Proof.
  apply (launch_failure_reported no_python3 (lit "print(1)") world0
           (mkExn FileNotFoundError
              (lit "[Errno 2] No such file or directory: 'python3'"))).
  reflexivity.
Defined.

(** X13: whenever the code could be written, so that the interpreter
    was launched or its launch failed, the executor's own footprint on
    the file system is its file: what it leaves is what the child left
    (the files before the call when the launch failed) without
    [temp_code.py]; a file that was there under that name before the call
    is lost. *)
Theorem executor_files (python3 : interpreter) (code : str) (w : World)
    (obs : child_obs) :
  launched python3 code w = Some obs ->
  fs (snd (execute_code python3 code w))
  = delete (lit "temp_code.py") (files_left obs (fs w)).
Proof.
  intros H. rewrite (execute_code_files _ _ _ _ H).
  destruct obs; cbn [files_left]; try reflexivity.
  launch H En. destruct (launched_encodable python3 code w En) as [_ ->].
  apply delete_insert_eq.
Qed.

Lemma executor_files_witness :
  fs (snd (execute_code toy_python3 self_deleting world_notes))
  = delete (lit "temp_code.py")
      (files_left (ChildExit 0 [] [] (fs world_notes)) (fs world_notes)).
Proof.
  apply (executor_files toy_python3 self_deleting world_notes
           (ChildExit 0 [] [] (fs world_notes))).
  vm_compute. reflexivity.
Defined.

(** X14: on every path, if no child was running before the call, none
    is running after it. *)
Theorem no_child_left_running (python3 : interpreter) (code : str)
    (w : World) :
  child_running false (procs w) = false ->
  child_running false (procs (snd (execute_code python3 code w))) = false.
Proof.
  intros H. rewrite execute_code_procs, child_running_app, H.
  destruct (launched python3 code w) as [[]|]; reflexivity.
Qed.

Lemma no_child_left_running_witness :
  child_running false (procs (snd (execute_code toy_python3 sleeper world0)))
  = false.
Proof.
  apply (no_child_left_running toy_python3 sleeper world0). reflexivity.
Defined.

(** * Further properties of the safety check, the generator and the routes *)

Lemma any_pattern_matches_false (re_search : searcher) pats code :
  any_pattern_matches re_search pats code = false
  <-> forall p, p ∈ pats -> re_search p code = false.
Proof.
  induction pats as [|q pats IH]; cbn [any_pattern_matches].
  - split; [intros _ p Hp; inversion Hp|reflexivity].
  - destruct (re_search q code) eqn:Hq.
    + split; [discriminate|]. intros H. rewrite <- Hq. apply H. left.
    + rewrite IH. split.
      * intros H p Hp. apply elem_of_cons in Hp as [->|Hp]; auto.
      * intros H p Hp. apply H. now right.
Qed.

(** X6: the safety check answers [True] exactly when no pattern of the
    denylist is found in the code and [ast.parse] accepts it; with the
    empty denylist of the source, exactly when [ast.parse] accepts it. *)
Theorem safe_iff_no_hit_and_parsed (ast_parse : parser) (re_search : searcher)
    (dangerous_patterns : list string) (code : str) (w : World) :
  (is_code_safe_with ast_parse re_search dangerous_patterns code w
   = (Return true, w)
   <-> (forall p, p ∈ dangerous_patterns -> re_search p code = false)
       /\ ast_parse code = None)
  /\ (is_code_safe ast_parse re_search code w = (Return true, w)
      <-> ast_parse code = None).
Proof.
  assert (G : forall pats,
             is_code_safe_with ast_parse re_search pats code w
             = (Return true, w)
             <-> any_pattern_matches re_search pats code = false
                 /\ ast_parse code = None).
  { intros pats. unfold is_code_safe_with, try_except, raise, ret.
    destruct (any_pattern_matches re_search pats code).
    - split; [discriminate|intros [? _]; discriminate].
    - destruct (ast_parse code) as [e|].
      + split; [|intros [_ ?]; discriminate].
        destruct (kind e); discriminate.
      + tauto. }
  split.
  - rewrite G, any_pattern_matches_false. reflexivity.
  - unfold is_code_safe. rewrite G. cbn. tauto.
Qed.

(** X7: a pattern of the denylist found in the code rejects it before
    the parser is asked, whatever the parser would do. *)
Theorem denylist_hit_rejects (ast_parse : parser) (re_search : searcher)
    (dangerous_patterns : list string) (code : str) (w : World)
    (pattern : string) :
  pattern ∈ dangerous_patterns ->
  re_search pattern code = true ->
  is_code_safe_with ast_parse re_search dangerous_patterns code w
  = (Return false, w).
Proof.
  intros Hp Hs. unfold is_code_safe_with.
  destruct (any_pattern_matches re_search dangerous_patterns code) eqn:A;
    [reflexivity|].
  rewrite any_pattern_matches_false in A. rewrite (A _ Hp) in Hs.
  discriminate.
Qed.

Lemma denylist_hit_witness :
  is_code_safe_with null_ast_parse prefix_search
    ["rm -rf"; "import os"]%string self_deleting world0
  = (Return false, world0).
Proof.
  apply (denylist_hit_rejects null_ast_parse prefix_search
           ["rm -rf"; "import os"]%string self_deleting world0
           "import os"%string);
    [right; left | reflexivity].
Defined.

(** X8: an exception of [ast.parse] that is not a [SyntaxError] is not
    caught: the safety check raises it instead of answering. *)
Theorem other_parse_errors_propagate (ast_parse : parser)
    (re_search : searcher) (dangerous_patterns : list string) (code : str)
    (e : exn) (w : World) :
  any_pattern_matches re_search dangerous_patterns code = false ->
  ast_parse code = Some e ->
  kind e <> SyntaxError ->
  is_code_safe_with ast_parse re_search dangerous_patterns code w
  = (Raise e, w)
  /\ is_code_safe ast_parse re_search code w = (Raise e, w).
Proof.
  intros A P K. unfold is_code_safe, is_code_safe_with.
  cbn [any_pattern_matches]. rewrite A.
  unfold try_except, raise. rewrite P.
  destruct (kind e); try congruence; auto.
Qed.

Lemma other_parse_errors_witness :
  is_code_safe_with null_ast_parse no_search ["import os"]%string
    (0 :: lit "print(1)") world0
  = (Raise (mkExn OtherException
              (lit "source code string cannot contain null bytes")), world0)
  /\ is_code_safe null_ast_parse no_search (0 :: lit "print(1)") world0
     = (Raise (mkExn OtherException
                 (lit "source code string cannot contain null bytes")),
        world0).
Proof.
  apply (other_parse_errors_propagate null_ast_parse no_search
           ["import os"]%string (0 :: lit "print(1)")
           (mkExn OtherException
              (lit "source code string cannot contain null bytes")) world0);
    [reflexivity | reflexivity | discriminate].
Defined.

(** X9: the generator never raises and touches neither the files nor
    the child processes; its text is the content of the backend's
    answer, unchanged and with nothing printed, or else the sentinel. *)
Theorem generator_result (chat : backend) (command : str) (w : World) :
  exists code w1,
    call_llm_for_code chat command w = (Return code, w1)
    /\ fs w1 = fs w /\ procs w1 = procs w
    /\ ((chat (chat_messages command) LLAMA_MODEL false
         = inr (mkChat (Some (mkCompletion code))) /\ w1 = w)
        \/ code = lit "# Error generating code").
Proof.
  unfold call_llm_for_code, llm_request, inference_chat_completion,
    get_content, try_except, bind, ret, raise, print.
  destruct (chat (chat_messages command) LLAMA_MODEL false)
    as [e|[[[c]|]]]; cbn; eexists _, _; eauto 10.
Qed.

(** X15: a body that is falsy ([null], [false], 0, an empty string,
    list or object), an object without the key [command], and a list or
    a string that does not hold [command] are answered with status 400
    and nothing else happens: no request to the backend, no file written,
    no child started, nothing printed.  When [request.json] raises (no
    JSON content type, a body that is not JSON), its exception leaves
    the handler; a number or a boolean that is not falsy, and a list or
    a string that holds [command], make the handler raise a [TypeError];
    nothing else happens then either. *)
Theorem missing_command_rejected (chat : backend) (python3 : interpreter)
    (w : World) :
  (forall data : json,
     truthy data = false ->
     process_command chat python3 (inr data) w
     = (Return (Json400 (lit "No command provided")), w))
  /\ (forall (fields : gmap str json) (shown : str),
        fields !! lit "command" = None ->
        process_command chat python3 (inr (JObject fields shown)) w
        = (Return (Json400 (lit "No command provided")), w))
  /\ (forall (items : list json) (shown : str),
        existsb (is_string (lit "command")) items = false ->
        process_command chat python3 (inr (JArray items shown)) w
        = (Return (Json400 (lit "No command provided")), w))
  /\ (forall s : str,
        substring (lit "command") s = false ->
        process_command chat python3 (inr (JString s)) w
        = (Return (Json400 (lit "No command provided")), w))
  /\ (forall e : exn,
        process_command chat python3 (inl e) w = (Raise e, w))
  /\ (forall data : json,
        truthy data = true ->
        match data with
        | JBool _ | JInt _ | JFloat _ _ => True
        | JArray items _ => existsb (is_string (lit "command")) items = true
        | JString s => substring (lit "command") s = true
        | _ => False
        end ->
        exists e,
          kind e = TypeError
          /\ process_command chat python3 (inr data) w = (Raise e, w)).
Proof.
  unfold process_command, request_json.
  split; [|split; [|split; [|split; [|split]]]].
  - intros data T. unfold bind at 1. unfold ret at 1. now rewrite T.
  - intros fields shown D. unfold bind at 1. unfold ret at 1.
    destruct (truthy (JObject fields shown)); [|reflexivity].
    unfold contains, bind, ret. cbn [negb].
    now rewrite bool_decide_eq_false_2
      by (rewrite D; intros [? ?]; discriminate).
  - intros items shown D. unfold bind at 1. unfold ret at 1.
    destruct (truthy (JArray items shown)); [|reflexivity].
    unfold contains, bind, ret. cbn [negb]. now rewrite D.
  - intros s D. unfold bind at 1. unfold ret at 1.
    destruct (truthy (JString s)); [|reflexivity].
    unfold contains, bind, ret. cbn [negb]. now rewrite D.
  - reflexivity.
  - intros data T K. unfold bind at 1. unfold ret at 1. rewrite T.
    unfold contains, getitem, bind, ret, raise. cbn [negb].
    destruct data as [|b|n|nz sh|s|items sh|fields sh]; try contradiction;
      try (eexists; split; [|reflexivity]; reflexivity);
      rewrite K; cbn [negb]; eexists; (split; [|reflexivity]); reflexivity.
Qed.



(** X17: [status] never raises and leaves the world as it is.  It gives
    no body exactly when the probe's answer is falsy.  Every body it
    gives says [online] and names the model, also when the backend is
    down: then [llama_stack] is [disconnected] and the error is the text
    of the exception; it is [connected], without error, when the probe
    was answered. *)
Theorem status_always_online (probe : prober) (w : World) :
  exists o,
    status probe w = (Return o, w)
    /\ (o = None
        <-> probe [mkMessage (lit "Test connection") (lit "user")]
              LLAMA_MODEL 10 false = inr None)
    /\ forall body, o = Some body ->
         status_line body = lit "online"
         /\ status_model body = LLAMA_MODEL
         /\ ((llama_stack body = lit "connected" /\ status_error body = None
              /\ exists r,
                   probe [mkMessage (lit "Test connection") (lit "user")]
                     LLAMA_MODEL 10 false = inr (Some r))
             \/ (llama_stack body = lit "disconnected"
                 /\ exists e,
                      probe [mkMessage (lit "Test connection") (lit "user")]
                        LLAMA_MODEL 10 false = inl e
                      /\ status_error body = Some (exc_str e))).
Proof.
  unfold status, probe_chat_completion, try_except, bind, ret, raise.
  destruct (probe _ _ _ _) as [e|[r|]]; eexists; (split; [reflexivity|]).
  - split; [split; discriminate|]. intros body [= <-]. cbn. eauto 10.
  - split; [split; discriminate|]. intros body [= <-]. cbn. eauto 10.
  - split; [tauto|]. discriminate.
Qed.

(** X18: the executor of [test1.py] and the one of the server give the
    same result and leave the same files whenever the interpreter does
    within 10 seconds what it does within 60. *)
Theorem test1_executor_agrees (python3 : interpreter) (code : str)
    (w : World) :
  python3 [lit "python3"; lit "temp_code.py"] 10 (fs (at_launch code w))
  = python3 [lit "python3"; lit "temp_code.py"] 60 (fs (at_launch code w)) ->
  fst (Test1.execute_code python3 code w) = fst (execute_code python3 code w)
  /\ fs (snd (Test1.execute_code python3 code w))
     = fs (snd (execute_code python3 code w)).
Proof.
  unfold Test1.execute_code, execute_code, at_launch,
    subprocess_run, os_remove, open_write, print, try_except, bind, ret.
  destruct (encodable (clean_generated_code code)); [|auto].
  cbn [fst snd fs console procs]. intros ->.
  destruct (python3 _ 60 _) as [rc out err fs'|out err fs'|e|e fs'];
    cbn [fst snd fs console procs returncode stdout stderr kind exc_str].
  - destruct (fs' !! lit "temp_code.py") eqn:K;
      cbn [fst snd fs console procs kind exc_str].
    + destruct (rc =? 0)%Z; auto.
    + rewrite !remove_if_exists_run. auto.
  - rewrite !remove_if_exists_run. auto.
  - destruct (kind e); rewrite !remove_if_exists_run; auto.
  - destruct (kind e); rewrite !remove_if_exists_run; auto.
Qed.

Lemma test1_executor_witness :
  fst (Test1.execute_code toy_python3 sleeper world0)
  = fst (execute_code toy_python3 sleeper world0)
  /\ fs (snd (Test1.execute_code toy_python3 sleeper world0))
     = fs (snd (execute_code toy_python3 sleeper world0)).
Proof.
  apply (test1_executor_agrees toy_python3 sleeper world0).
  vm_compute. reflexivity.
Defined.
